(** * ArtworkTable: the paginated artwork grid and its cross-page bulk selection

    A shallow embedding of [src/components/DataTable.tsx]: the page cache,
    the page fetcher [fetchArtworks], the parallel prefetch [prefetchPages],
    the page planner [calculatePagesNeeded] and the bulk selector
    [handleAutoSelect], followed by the properties proved about them.

    Modelling conventions.
    - JavaScript numbers that the component computes with (page numbers, row
      counts, offsets) are integers in the safe range and are modelled by [Z].
    - A React state variable read inside a handler is the value captured by
      the render that created the handler (the argument [env] below); a
      [setX] call updates the live state carried by the [world].  A handler
      invoked from the latest render has [env = ui w].
    - The remote source is an oracle [remote]: the outcome of a request is a
      function of the requests issued before it and of the request itself;
      every issued request is appended to the [requests] log of the world.
    - [console.error] appends to the [console] log of the world.
    - An array holds at most [maxLength] elements ([2^32 - 1] by the language
      standard, fewer in an engine): [push] on a full array throws a
      [RangeError]. *)

From Stdlib Require Import ZArith Lia.
From stdpp Require Import gmap strings list.

Local Open Scope Z_scope.

(** ** JavaScript values as [JSON.parse] and property access produce them *)

#[local] Set Warnings "-register-all".

Inductive jsval : Type :=
| VUndefined
| VNull
| VBool (b : bool)
| VNum (n : Z)
| VStr (s : string)
| VArr (items : list jsval)
| VObj (props : list (string * jsval)).

Inductive exn : Type :=
| TypeError
| NetworkError
| SyntaxError
| RangeError.

Inductive result (A : Type) : Type :=
| Ok (a : A)
| Throw (e : exn).

Arguments Ok {A} a.
Arguments Throw {A} e.

Definition result_bind {A B : Type} (r : result A) (k : A -> result B) : result B :=
  match r with
  | Ok a => k a
  | Throw e => Throw e
  end.

(** [o.k] for an own property [k] of a parsed object (in which every key
    occurs once). *)
Fixpoint own_prop (props : list (string * jsval)) (k : string) : jsval :=
  match props with
  | [] => VUndefined
  | (k', v) :: rest => if String.eqb k' k then v else own_prop rest k
  end.

(** [v.k]: a [TypeError] on [null] and [undefined]; [undefined] on a
    primitive or an array (none of the names the component reads is a
    built-in property); the own property of an object. *)
Definition get_prop (v : jsval) (k : string) : result jsval :=
  match v with
  | VUndefined | VNull => Throw TypeError
  | VObj props => Ok (own_prop props k)
  | _ => Ok VUndefined
  end.

(** ** Records *)

Module Artworks.
Record t : Type := mk {
  id : jsval;
  title : jsval;
  place_of_origin : jsval;
  artist_display : jsval;
  inscriptions : jsval;
  date_start : jsval;
  date_end : jsval;
}.
End Artworks.

(** The callback of [data.data.map] (lines 58-66 and 93-101). *)
Definition mapItem (item : jsval) : result Artworks.t :=
  result_bind (get_prop item "id") (fun id =>
  result_bind (get_prop item "title") (fun title =>
  result_bind (get_prop item "place_of_origin") (fun place_of_origin =>
  result_bind (get_prop item "artist_display") (fun artist_display =>
  result_bind (get_prop item "inscriptions") (fun inscriptions =>
  result_bind (get_prop item "date_start") (fun date_start =>
  result_bind (get_prop item "date_end") (fun date_end =>
  Ok (Artworks.mk id title place_of_origin artist_display inscriptions
        date_start date_end)))))))).

Fixpoint mapItems (items : list jsval) : result (list Artworks.t) :=
  match items with
  | [] => Ok []
  | item :: rest =>
      result_bind (mapItem item) (fun a =>
      result_bind (mapItems rest) (fun l => Ok (a :: l)))
  end.

(** [data.data.map(...)]: only an array has a callable [map]. *)
Definition mappedData (data : jsval) : result (list Artworks.t) :=
  result_bind (get_prop data "data") (fun d =>
  match d with
  | VArr items => mapItems items
  | _ => Throw TypeError
  end).

(** ** Component state (lines 31-42) *)

Record state : Type := mkState {
  artworks : list Artworks.t;
  selectedArtworks : list Artworks.t;
  rowClick : bool;
  loading : bool;
  first : Z;
  rows : Z;
  totalRecords : jsval;
  pageCache : gmap Z (list Artworks.t);
  isSelecting : bool;
  selectCount : option Z;
}.

Definition initial_state : state :=
  mkState [] [] true true 0 12 (VNum 0) ∅ false None.

Definition setArtworks (v : list Artworks.t) (s : state) : state :=
  mkState v (selectedArtworks s) (rowClick s) (loading s) (first s) (rows s)
    (totalRecords s) (pageCache s) (isSelecting s) (selectCount s).

Definition setSelectedArtworks (v : list Artworks.t) (s : state) : state :=
  mkState (artworks s) v (rowClick s) (loading s) (first s) (rows s)
    (totalRecords s) (pageCache s) (isSelecting s) (selectCount s).

Definition setLoading (v : bool) (s : state) : state :=
  mkState (artworks s) (selectedArtworks s) (rowClick s) v (first s) (rows s)
    (totalRecords s) (pageCache s) (isSelecting s) (selectCount s).

Definition setFirst (v : Z) (s : state) : state :=
  mkState (artworks s) (selectedArtworks s) (rowClick s) (loading s) v (rows s)
    (totalRecords s) (pageCache s) (isSelecting s) (selectCount s).

Definition setRows (v : Z) (s : state) : state :=
  mkState (artworks s) (selectedArtworks s) (rowClick s) (loading s) (first s) v
    (totalRecords s) (pageCache s) (isSelecting s) (selectCount s).

Definition setTotalRecords (v : jsval) (s : state) : state :=
  mkState (artworks s) (selectedArtworks s) (rowClick s) (loading s) (first s)
    (rows s) v (pageCache s) (isSelecting s) (selectCount s).

(** [setPageCache] is always called with an updater [(prev) => ...]. *)
Definition setPageCache
    (f : gmap Z (list Artworks.t) -> gmap Z (list Artworks.t)) (s : state) : state :=
  mkState (artworks s) (selectedArtworks s) (rowClick s) (loading s) (first s)
    (rows s) (totalRecords s) (f (pageCache s)) (isSelecting s) (selectCount s).

Definition setIsSelecting (v : bool) (s : state) : state :=
  mkState (artworks s) (selectedArtworks s) (rowClick s) (loading s) (first s)
    (rows s) (totalRecords s) (pageCache s) v (selectCount s).

Definition setSelectCount (v : option Z) (s : state) : state :=
  mkState (artworks s) (selectedArtworks s) (rowClick s) (loading s) (first s)
    (rows s) (totalRecords s) (pageCache s) (isSelecting s) v.

(** ** The world a handler runs in *)

(** A request [?page=..&limit=..]. *)
Definition request : Type := (Z * Z)%type.

(** What [await fetch(url)] followed by [await response.json()] gives. *)
Inductive fetch_outcome : Type :=
| FetchRejected
| JsonRejected
| Json (data : jsval).

Inductive console_entry : Type :=
| ErrorFetchingArtworks (e : exn)
| ErrorPrefetchingPage (pageNum : Z) (e : exn)
| ErrorInBulkSelection (e : exn).

Record world : Type := mkWorld {
  ui : state;
  console : list console_entry;
  requests : list request;
}.

Definition M (A : Type) : Type := world -> result A * world.

Definition ret {A : Type} (a : A) : M A := fun w => (Ok a, w).

Definition throw {A : Type} (e : exn) : M A := fun w => (Throw e, w).

Definition bind {A B : Type} (m : M A) (k : A -> M B) : M B :=
  fun w =>
    match m w with
    | (Ok a, w') => k a w'
    | (Throw e, w') => (Throw e, w')
    end.

Definition lift {A : Type} (r : result A) : M A := fun w => (r, w).

(** [try { body } catch (error) { handler }]: state updates made by the body
    before it throws stay in place. *)
Definition try_catch {A : Type} (body : M A) (handler : exn -> M A) : M A :=
  fun w =>
    match body w with
    | (Ok a, w') => (Ok a, w')
    | (Throw e, w') => handler e w'
    end.

Definition set_state (f : state -> state) : M unit :=
  fun w => (Ok tt, mkWorld (f (ui w)) (console w) (requests w)).

Definition console_error (entry : console_entry) : M unit :=
  fun w => (Ok tt, mkWorld (ui w) (console w ++ [entry]) (requests w)).

Declare Scope js_scope.
Delimit Scope js_scope with js.
Notation "x <- m ;; k" := (bind m (fun x => k))
  (at level 100, m at next level, right associativity) : js_scope.
Notation "m ;; k" := (bind m (fun _ => k))
  (at level 100, right associativity) : js_scope.

Definition await_json (o : fetch_outcome) : result jsval :=
  match o with
  | FetchRejected => Throw NetworkError
  | JsonRejected => Throw SyntaxError
  | Json data => Ok data
  end.

(** ** The planning loop of [calculatePagesNeeded] (lines 131-143) *)

Record loop_state : Type := mkLoop {
  pages : list Z;
  remaining : Z;
  page : Z;
}.

(** One iteration of the [while] body. *)
Definition loop_body (rows : Z) (s : loop_state) : loop_state :=
  mkLoop (pages s ++ [page s]) (remaining s - rows) (page s + 1).

(** [while (remaining > 0) { ... } return pages].  [room] is the number of
    elements the array [pages] can still take: when the guard holds and the
    array is full, [pages.push(page)] throws a [RangeError] ("Invalid array
    length"), which ends the loop. *)
Fixpoint while_loop (room : nat) (rows : Z) (s : loop_state) : result (list Z) :=
  if 0 <? remaining s then
    match room with
    | O => Throw RangeError
    | S room' => while_loop room' rows (loop_body rows s)
    end
  else Ok (pages s).

Definition calculatePagesNeeded
    (maxLength : nat) (env : state) (count currentPage : Z) : result (list Z) :=
  while_loop maxLength (rows env) (mkLoop [] count currentPage).


(** ** The handlers of the component *)

Section Handlers.

(** The remote source: the outcome of a request, given the requests issued
    before it. *)
Variable remote : list request -> request -> fetch_outcome.

(** [fetch(`...?page=${page}&limit=${limit}`)]: the request goes out now, its
    outcome is consumed when the caller resumes. *)
Definition issue_fetch (page limit : Z) : M fetch_outcome :=
  fun w =>
    (Ok (remote (requests w) (page, limit)),
     mkWorld (ui w) (console w) (requests w ++ [(page, limit)])).

(** [fetchArtworks] (lines 44-76), called from a render whose state is [env].
    A cached page is an array, which is truthy even when empty, so the test
    of line 45 succeeds exactly when the page number is a key of the cache.
    Every caller passes both arguments, so the default values are not
    modelled. *)
Definition fetchArtworks (env : state) (page pageSize : Z) : M unit :=
  match pageCache env !! page with
  | Some cached =>
      (set_state (setArtworks cached) ;;
       set_state (setLoading false))%js
  | None =>
      (set_state (setLoading true) ;;
       try_catch
         (response <- issue_fetch page pageSize ;;
          data <- lift (await_json response) ;;
          mapped <- lift (mappedData data) ;;
          set_state (setPageCache (fun prev => <[page := mapped]> prev)) ;;
          set_state (setArtworks mapped) ;;
          pagination <- lift (get_prop data "pagination") ;;
          total <- lift (get_prop pagination "total") ;;
          set_state (setTotalRecords total))
         (fun error => console_error (ErrorFetchingArtworks error)) ;;
       set_state (setLoading false))%js
  end.

(** The synchronous part of the [pageNumbers.map(async ...)] callbacks of
    [prefetchPages] (lines 81-90), in array order: a cached page is copied
    into [newCache], a missing page has its request issued and its outcome
    left pending. *)
Fixpoint start_fetches (env : state) (pageNumbers : list Z)
    (newCache : gmap Z (list Artworks.t)) (pending : list (Z * fetch_outcome))
    : M (gmap Z (list Artworks.t) * list (Z * fetch_outcome)) :=
  match pageNumbers with
  | [] => ret (newCache, pending)
  | pageNum :: rest =>
      match pageCache env !! pageNum with
      | Some cached =>
          start_fetches env rest (<[pageNum := cached]> newCache) pending
      | None =>
          (response <- issue_fetch pageNum (rows env) ;;
           start_fetches env rest newCache (pending ++ [(pageNum, response)]))%js
      end
  end.

(** The rest of one callback (lines 91-106), run when its response arrives. *)
Definition finish_fetch (newCache : gmap Z (list Artworks.t))
    (arrival : Z * fetch_outcome) : M (gmap Z (list Artworks.t)) :=
  let '(pageNum, response) := arrival in
  try_catch
    (data <- lift (await_json response) ;;
     mapped <- lift (mappedData data) ;;
     ret (<[pageNum := mapped]> newCache))%js
    (fun error =>
       (console_error (ErrorPrefetchingPage pageNum error) ;; ret newCache)%js).

Fixpoint finish_fetches (arrivals : list (Z * fetch_outcome))
    (newCache : gmap Z (list Artworks.t)) : M (gmap Z (list Artworks.t)) :=
  match arrivals with
  | [] => ret newCache
  | arrival :: rest =>
      (newCache' <- finish_fetch newCache arrival ;;
       finish_fetches rest newCache')%js
  end.

(** [prefetchPages] (lines 78-114).  [arrival_order] lists the pending
    fetches in the order in which their responses arrive; [Promise.all]
    resumes the caller once every callback has finished. *)
Definition prefetchPages
    (arrival_order : list (Z * fetch_outcome) -> list (Z * fetch_outcome))
    (env : state) (pageNumbers : list Z) : M (gmap Z (list Artworks.t)) :=
  (started <- start_fetches env pageNumbers ∅ [] ;;
   newCache <- finish_fetches (arrival_order (snd started)) (fst started) ;;
   set_state (setPageCache (fun prev => newCache ∪ prev)) ;;
   ret newCache)%js.

(** [onPage] (lines 120-125); [??] replaces a missing field of the event. *)
Record page_event : Type := mkPageEvent {
  ev_first : option Z;
  ev_rows : option Z;
  ev_page : option Z;
}.

Definition onPage (env : state) (event : page_event) : M unit :=
  let nextPage := default 0 (ev_page event) + 1 in
  (set_state (setFirst (default 0 (ev_first event))) ;;
   set_state (setRows (default 12 (ev_rows event))) ;;
   fetchArtworks env nextPage (default 12 (ev_rows event)))%js.

(** [onSelectionChange] (lines 127-129): [e.value || []]. *)
Definition onSelectionChange (value : option (list Artworks.t)) : M unit :=
  set_state (setSelectedArtworks (default [] value)).

(** [pageData.slice(0, toTake)]: a negative end counts from the end. *)
Definition slice0 {A : Type} (l : list A) (toTake : Z) : list A :=
  if toTake <? 0
  then take (Z.to_nat (Z.max (Z.of_nat (length l) + toTake) 0)) l
  else take (Z.to_nat toTake) l.

(** The assembly loop of [handleAutoSelect] (lines 156-166). *)
Fixpoint select_loop (fetchedData cache : gmap Z (list Artworks.t))
    (pagesToFetch : list Z) (remaining : Z) (selected : list Artworks.t)
    : list Artworks.t :=
  match pagesToFetch with
  | [] => selected
  | pageNum :: rest =>
      let pageData :=
        match fetchedData !! pageNum with
        | Some l => l
        | None => default [] (cache !! pageNum)
        end in
      let toTake := Z.min remaining (Z.of_nat (length pageData)) in
      let selected' := selected ++ slice0 pageData toTake in
      let remaining' := remaining - toTake in
      if remaining' <=? 0 then selected'
      else select_loop fetchedData cache rest remaining' selected'
  end.

(** The guard [!selectCount || selectCount <= 0] (line 146). *)
Definition rejected (selectCount : option Z) : bool :=
  match selectCount with
  | None => true
  | Some c => (c =? 0) || (c <=? 0)
  end.

(** [handleAutoSelect] (lines 145-175).  The current page and the plan are
    computed inside the [try], so that a [RangeError] of the planner is
    caught, logged, and followed by the [finally] like any other exception.
    [op.current?.hide()] only closes the overlay and is left out.
    [Math.floor(first / rows)] is the floor division of [Z] for every [rows]
    but zero, where JavaScript yields a non-finite number; the planner
    throws in that case whatever the current page is, and the plan is
    dropped. *)
Definition handleAutoSelect (maxLength : nat)
    (arrival_order : list (Z * fetch_outcome) -> list (Z * fetch_outcome))
    (env : state) : M unit :=
  if rejected (selectCount env) then ret tt
  else
    let count := default 0 (selectCount env) in
    (set_state (setIsSelecting true) ;;
     try_catch
       (let currentPage := first env / rows env + 1 in
        pagesToFetch <-
          lift (calculatePagesNeeded maxLength env count currentPage) ;;
        fetchedData <- prefetchPages arrival_order env pagesToFetch ;;
        set_state
          (setSelectedArtworks
             (select_loop fetchedData (pageCache env) pagesToFetch count [])))
       (fun error => console_error (ErrorInBulkSelection error)) ;;
     set_state (setIsSelecting false))%js.

End Handlers.

(** ** Reference functions used to state the properties *)

(** The ceiling of [a / b] for [1 <= b]. *)
Definition ceil_div (a b : Z) : Z := (a + b - 1) / b.

(** [await fetch] and [response.json()] followed by the mapping of the
    records: what both fetch paths do before they store a page. *)
Definition decode (o : fetch_outcome) : result (list Artworks.t) :=
  result_bind (await_json o) mappedData.

(** The record a well-formed item object is mapped to. *)
Definition normalize (props : list (string * jsval)) : Artworks.t :=
  Artworks.mk (own_prop props "id") (own_prop props "title")
    (own_prop props "place_of_origin") (own_prop props "artist_display")
    (own_prop props "inscriptions") (own_prop props "date_start")
    (own_prop props "date_end").

(** The cached pages [prefetchPages] copies into [newCache]. *)
Fixpoint cached_pages (env : state) (pageNumbers : list Z)
    (newCache : gmap Z (list Artworks.t)) : gmap Z (list Artworks.t) :=
  match pageNumbers with
  | [] => newCache
  | pageNum :: rest =>
      match pageCache env !! pageNum with
      | Some cached => cached_pages env rest (<[pageNum := cached]> newCache)
      | None => cached_pages env rest newCache
      end
  end.

(** The requests [prefetchPages] issues, in order. *)
Fixpoint uncached_requests (env : state) (pageNumbers : list Z) : list request :=
  match pageNumbers with
  | [] => []
  | pageNum :: rest =>
      match pageCache env !! pageNum with
      | Some _ => uncached_requests env rest
      | None => (pageNum, rows env) :: uncached_requests env rest
      end
  end.

(** What the pending callbacks store once they have all run. *)
Fixpoint settle (arrivals : list (Z * fetch_outcome))
    (newCache : gmap Z (list Artworks.t)) : gmap Z (list Artworks.t) :=
  match arrivals with
  | [] => newCache
  | (pageNum, response) :: rest =>
      settle rest
        match decode response with
        | Ok mapped => <[pageNum := mapped]> newCache
        | Throw _ => newCache
        end
  end.

(** What they report to the console. *)
Fixpoint settle_errors (arrivals : list (Z * fetch_outcome)) : list console_entry :=
  match arrivals with
  | [] => []
  | (pageNum, response) :: rest =>
      match decode response with
      | Ok _ => settle_errors rest
      | Throw e => ErrorPrefetchingPage pageNum e :: settle_errors rest
      end
  end.

(** The records a planned page contributes to a bulk selection: its cached
    records, else the records of its fetch when that fetch succeeded, else
    none. *)
Definition page_records (env : state) (pending : list (Z * fetch_outcome))
    (pageNum : Z) : list Artworks.t :=
  match pageCache env !! pageNum with
  | Some cached => cached
  | None =>
      match (list_to_map pending : gmap Z fetch_outcome) !! pageNum with
      | Some response =>
          match decode response with
          | Ok mapped => mapped
          | Throw _ => []
          end
      | None => []
      end
  end.

(** The page data the assembly loop reads for a page (line 160). *)
Definition page_data (fetchedData cache : gmap Z (list Artworks.t))
    (pageNum : Z) : list Artworks.t :=
  match fetchedData !! pageNum with
  | Some l => l
  | None => default [] (cache !! pageNum)
  end.

(** Records [(page - 1) * limit .. page * limit - 1] of a dataset. *)
Definition page_slice {A : Type} (ds : list A) (page limit : Z) : list A :=
  take (Z.to_nat limit) (drop (Z.to_nat ((page - 1) * limit)) ds).

Section Remote.

Variable remote : list request -> request -> fetch_outcome.

(** The fetches [prefetchPages] leaves pending, with their outcomes. *)
Fixpoint pending_fetches (env : state) (pageNumbers : list Z)
    (log : list request) : list (Z * fetch_outcome) :=
  match pageNumbers with
  | [] => []
  | pageNum :: rest =>
      match pageCache env !! pageNum with
      | Some _ => pending_fetches env rest log
      | None =>
          (pageNum, remote log (pageNum, rows env))
          :: pending_fetches env rest (log ++ [(pageNum, rows env)])
      end
  end.

(** The map [prefetchPages] returns. *)
Definition prefetched
    (arrival_order : list (Z * fetch_outcome) -> list (Z * fetch_outcome))
    (env : state) (pageNumbers : list Z) (log : list request)
    : gmap Z (list Artworks.t) :=
  settle (arrival_order (pending_fetches env pageNumbers log))
    (cached_pages env pageNumbers ∅).

(** A fully available dataset: every request for a page of at least one
    record is answered with that page of the dataset and with the dataset's
    size as the total. *)
Definition serves (ds : list (list (string * jsval))) : Prop :=
  forall log page limit,
    1 <= page -> 1 <= limit ->
    exists data pagination,
      remote log (page, limit) = Json data
      /\ get_prop data "data" = Ok (VArr (VObj <$> page_slice ds page limit))
      /\ get_prop data "pagination" = Ok pagination
      /\ get_prop pagination "total" = Ok (VNum (Z.of_nat (length ds))).

End Remote.

(** The cached pages hold the dataset's pages at the current page size. *)
Definition cache_consistent (ds : list (list (string * jsval))) (env : state) : Prop :=
  forall pageNum cached,
    1 <= pageNum ->
    pageCache env !! pageNum = Some cached ->
    cached = normalize <$> page_slice ds pageNum (rows env).

(** A remote source that serves the dataset [ds], and nothing else. *)
Definition page_body (ds : list (list (string * jsval))) (page limit : Z) : jsval :=
  VObj [("data", VArr (VObj <$> page_slice ds page limit));
        ("pagination", VObj [("total", VNum (Z.of_nat (length ds)))])].

Definition serve (ds : list (list (string * jsval)))
    (log : list request) (r : request) : fetch_outcome :=
  Json (page_body ds (fst r) (snd r)).

(** A remote source that is unreachable. *)
Definition unreachable (log : list request) (r : request) : fetch_outcome :=
  FetchRejected.

(** A remote source that serves [ds] except for the pages of [failing]. *)
Definition serve_except (failing : list Z) (ds : list (list (string * jsval)))
    (log : list request) (r : request) : fetch_outcome :=
  if bool_decide (fst r ∈ failing) then FetchRejected else serve ds log r.

(** A dataset of [n] items with identifiers 0 .. n-1. *)
Definition catalogue (n : nat) : list (list (string * jsval)) :=
  (fun i => [("id", VNum (Z.of_nat i)); ("title", VStr "Untitled")]) <$> seq 0 n.

Definition world_of (s : state) : world := mkWorld s [] [].

(** [onValueChange] of the count input (line 251): [setSelectCount]. *)
Definition enter_count (count : Z) (w : world) : world :=
  mkWorld (setSelectCount (Some count) (ui w)) (console w) (requests w).

(** A remote source that serves [ds] to the first request and [ds'] to the
    later ones. *)
Definition serve_then (ds ds' : list (list (string * jsval)))
    (log : list request) (r : request) : fetch_outcome :=
  match log with
  | [] => serve ds log r
  | _ :: _ => serve ds' log r
  end.

(** A session: the first page is loaded on mount (lines 116-118), then the
    user moves to the second page. *)
Definition first_load (remote : list request -> request -> fetch_outcome) : world :=
  snd (fetchArtworks remote initial_state 1 12 (world_of initial_state)).

Definition second_page (remote : list request -> request -> fetch_outcome) : world :=
  snd (onPage remote (ui (first_load remote))
         (mkPageEvent (Some 12) (Some 12) (Some 1)) (first_load remote)).

(** A dataset of [n] items with identifiers [start .. start + n - 1]. *)
Definition catalogue_from (start : Z) (n : nat) : list (list (string * jsval)) :=
  (fun i => [("id", VNum (start + Z.of_nat i)); ("title", VStr "Untitled")])
  <$> seq 0 n.

(** A remote source whose dataset changes over time: the request issued
    after [k] others is served from the [k]-th dataset of [versions]. *)
Definition serve_versions (versions : list (list (list (string * jsval))))
    (log : list request) (r : request) : fetch_outcome :=
  serve (default [] (versions !! length log)) log r.

(** A bulk selection overlapped by a navigation.  The dataset is replaced on
    the server after the second request.  The first page is loaded and a
    count of 20 entered; from that render the user starts a bulk selection
    and, before it has finished, moves to page 2: the navigation runs from
    the render in which page 2 is not cached, and its fetch completes after
    the bulk selection has stored page 2. *)
Definition changing_remote : list request -> request -> fetch_outcome :=
  serve_versions [catalogue 30; catalogue 30; catalogue_from 100 30].

Definition render_before_bulk : world :=
  enter_count 20 (first_load changing_remote).

Definition after_bulk : world :=
  snd (handleAutoSelect changing_remote 20 reverse (ui render_before_bulk)
         render_before_bulk).

Definition after_overlapping_navigation : world :=
  snd (onPage changing_remote (ui render_before_bulk)
         (mkPageEvent (Some 12) (Some 12) (Some 1)) after_bulk).

(** The state of a fresh component in which the user asks for [count] rows
    while the grid shows the page that starts at row [offset]. *)
Definition bulk_request (count offset : Z) : state :=
  setSelectCount (Some count) (setFirst offset initial_state).

(** ** What the render derives from the state *)

(** [null] and [undefined], the values [?.] and [??] test for. *)
Definition nullish (v : jsval) : bool :=
  match v with
  | VUndefined | VNull => true
  | _ => false
  end.

(** [Math.ceil(a / b)] on integers, for [b] other than zero. *)
Definition Math_ceil (a b : Z) : Z := - ((- a) / b).

(** The number shown as "Will select across N pages" (lines 265-269):
    the paragraph is rendered when [selectCount && selectCount > rows] is
    truthy; [None] when it is not rendered. *)
Definition pages_preview (s : state) : option Z :=
  match selectCount s with
  | None => None
  | Some count =>
      if negb (count =? 0) && (rows s <? count)
      then Some (Math_ceil count (rows s))
      else None
  end.

(** The line feed of ["\n"]. *)
Definition line_feed : Ascii.ascii := Ascii.ascii_of_nat 10.

(** [s.split("\n")[0]]: the text before the first line feed. *)
Fixpoint first_line (s : string) : string :=
  match s with
  | EmptyString => EmptyString
  | String c rest =>
      if Ascii.eqb c line_feed then EmptyString else String c (first_line rest)
  end.

(** The body of the artist column (lines 290-294):
    [row.artist_display?.split("\n")[0] ?? "Unknown"].  Only a string has a
    callable [split]. *)
Definition artist_body (row : Artworks.t) : result string :=
  match Artworks.artist_display row with
  | VUndefined | VNull => Ok "Unknown"
  | VStr s => Ok (first_line s)
  | _ => Throw TypeError
  end.

(** The rows on display are the records of a cached page, or there are
    none. *)
Definition shows_cached_page (s : state) : Prop :=
  artworks s = [] \/ exists pageNum, pageCache s !! pageNum = Some (artworks s).

(** The world [w] with its selection replaced, as [onSelectionChange]
    leaves it. *)
Definition with_selection (selected : list Artworks.t) (w : world) : world :=
  mkWorld (setSelectedArtworks selected (ui w)) (console w) (requests w).

(** * Properties of the planner *)

Section Planner.

Lemma ceil_div_spec a b :
  1 <= b -> (ceil_div a b - 1) * b < a <= ceil_div a b * b.
Proof.
  intros Hb. unfold ceil_div.
  pose proof (Z.div_mod (a + b - 1) b ltac:(lia)) as Hdm.
  pose proof (Z.mod_pos_bound (a + b - 1) b ltac:(lia)) as Hm.
  nia.
Qed.

Lemma ceil_div_nonpos a b : 1 <= b -> a <= 0 -> ceil_div a b <= 0.
Proof.
  intros Hb Ha. pose proof (ceil_div_spec a b Hb). nia.
Qed.

Lemma ceil_div_pos a b : 1 <= b -> 0 < a -> 1 <= ceil_div a b <= a.
Proof.
  intros Hb Ha. pose proof (ceil_div_spec a b Hb). nia.
Qed.

Lemma ceil_div_step a b : 1 <= b -> ceil_div (a - b) b = ceil_div a b - 1.
Proof.
  intros Hb. unfold ceil_div.
  replace (a - b + b - 1) with (a + b - 1 + (-1) * b) by lia.
  rewrite Z.div_add by lia. lia.
Qed.

(** With a page size of at least one the loop returns the planned pages
    appended to those already collected, as soon as the array has room for
    them. *)
Lemma while_loop_run rows room : forall s,
  1 <= rows ->
  (Z.to_nat (ceil_div (remaining s) rows) <= room)%nat ->
  while_loop room rows s
  = Ok (pages s ++ seqZ (page s) (ceil_div (remaining s) rows)).
Proof.
  induction room as [|room IH]; intros s Hrows Hroom.
  - simpl. destruct (0 <? remaining s) eqn:Hguard.
    + apply Z.ltb_lt in Hguard.
      pose proof (ceil_div_pos (remaining s) rows Hrows Hguard). lia.
    + apply Z.ltb_ge in Hguard.
      rewrite seqZ_nil by (apply ceil_div_nonpos; lia).
      by rewrite app_nil_r.
  - simpl. destruct (0 <? remaining s) eqn:Hguard.
    + apply Z.ltb_lt in Hguard.
      pose proof (ceil_div_pos (remaining s) rows Hrows Hguard) as Hpos.
      rewrite IH; [|done|].
      * simpl. rewrite ceil_div_step by done.
        rewrite (seqZ_cons (page s) (ceil_div (remaining s) rows)) by lia.
        rewrite <- app_assoc. simpl.
        by replace (Z.succ (page s)) with (page s + 1) by lia.
      * simpl. rewrite ceil_div_step by done. lia.
    + apply Z.ltb_ge in Hguard.
      rewrite seqZ_nil by (apply ceil_div_nonpos; lia).
      by rewrite app_nil_r.
Qed.



(** The loop then ends only when the array is full. *)
Lemma while_loop_overflows rows room : forall s,
  rows <= 0 -> 0 < remaining s -> while_loop room rows s = Throw RangeError.
Proof.
  induction room as [|room IH]; intros s Hrows Hrem; simpl.
  - by rewrite (proj2 (Z.ltb_lt _ _) Hrem).
  - rewrite (proj2 (Z.ltb_lt _ _) Hrem). apply IH; [done|]. simpl. lia.
Qed.

Lemma calculatePagesNeeded_run maxLength env count currentPage :
  1 <= rows env ->
  (Z.to_nat count <= maxLength)%nat ->
  calculatePagesNeeded maxLength env count currentPage
  = Ok (seqZ currentPage (ceil_div count (rows env))).
Proof.
  intros Hrows Hroom. unfold calculatePagesNeeded.
  rewrite while_loop_run; [done|done|]. simpl.
  destruct (Z.le_gt_cases count 0) as [Hle|Hgt].
  - pose proof (ceil_div_nonpos count (rows env) Hrows Hle). lia.
  - pose proof (ceil_div_pos count (rows env) Hrows Hgt). lia.
Qed.


(** C2. For a desired count above zero and a page size of at least one the
    planner returns the consecutive page numbers [startPage],
    [startPage + 1], ..., [startPage + ceil(desiredCount / pageSize) - 1],
    the result of running the append-and-subtract loop until the remaining
    count is no longer positive; for a desired count of zero or less it
    returns the empty plan; and it maps (25, 1, 12) to [1, 2, 3],
    (12, 1, 12) to [1] and (0, 1, 12) to the empty plan.  The start page
    need not be positive for this to hold. *)
Theorem calculatePagesNeeded_plan :
  (forall env desiredCount startPage maxLength,
      0 < desiredCount -> 1 <= rows env ->
      (Z.to_nat desiredCount <= maxLength)%nat ->
      calculatePagesNeeded maxLength env desiredCount startPage
      = Ok (seqZ startPage (ceil_div desiredCount (rows env)))
      /\ (ceil_div desiredCount (rows env) - 1) * rows env < desiredCount
         <= ceil_div desiredCount (rows env) * rows env)
  /\ (forall env desiredCount startPage maxLength,
      desiredCount <= 0 ->
      calculatePagesNeeded maxLength env desiredCount startPage = Ok [])
  /\ calculatePagesNeeded 3 (setRows 12 initial_state) 25 1 = Ok [1; 2; 3]
  /\ calculatePagesNeeded 1 (setRows 12 initial_state) 12 1 = Ok [1]
  /\ calculatePagesNeeded 0 (setRows 12 initial_state) 0 1 = Ok [].
Proof.
  split; [|split; [|by vm_compute]].
  - intros env desiredCount startPage maxLength Hcount Hrows Hroom. split.
    + by apply calculatePagesNeeded_run.
    + by apply ceil_div_spec.
  - intros env desiredCount startPage maxLength Hcount.
    unfold calculatePagesNeeded.
    destruct maxLength; simpl; by rewrite (proj2 (Z.ltb_ge _ _) Hcount).
Qed.

Lemma calculatePagesNeeded_plan_witness :
  calculatePagesNeeded 40 (setRows 12 initial_state) 30 4 = Ok [4; 5; 6]
  /\ calculatePagesNeeded 2 (setRows 12 initial_state) (-7) 4 = Ok [].
Proof.
  split.
  - apply (proj1 (proj1 calculatePagesNeeded_plan
                    (setRows 12 initial_state) 30 4 40%nat
                    ltac:(done) ltac:(done) ltac:(vm_compute; lia))).
  - apply (proj1 (proj2 calculatePagesNeeded_plan)
             (setRows 12 initial_state) (-7) 4 2%nat ltac:(done)).
Defined.




End Planner.

(** * What the handlers compute *)

Section Runs.

Variable remote : list request -> request -> fetch_outcome.

Lemma bind_ok {A B : Type} (m : M A) (k : A -> M B) w a w' :
  m w = (Ok a, w') -> bind m k w = k a w'.
Proof. intros Hm. unfold bind. by rewrite Hm. Qed.

Lemma bind_throw {A B : Type} (m : M A) (k : A -> M B) w e w' :
  m w = (Throw e, w') -> bind m k w = (Throw e, w').
Proof. intros Hm. unfold bind. by rewrite Hm. Qed.

(** A cache hit: the cached page is shown, nothing else happens. *)
Lemma fetchArtworks_hit env page pageSize cached w :
  pageCache env !! page = Some cached ->
  fetchArtworks remote env page pageSize w
  = (Ok tt,
     mkWorld (setLoading false (setArtworks cached (ui w)))
       (console w) (requests w)).
Proof. intros Hhit. unfold fetchArtworks. by rewrite Hhit. Qed.

(** A miss whose fetch fails before the records are mapped. *)
Lemma fetchArtworks_miss_failed env page pageSize w e :
  pageCache env !! page = None ->
  decode (remote (requests w) (page, pageSize)) = Throw e ->
  fetchArtworks remote env page pageSize w
  = (Ok tt,
     mkWorld (setLoading false (setLoading true (ui w)))
       (console w ++ [ErrorFetchingArtworks e])
       (requests w ++ [(page, pageSize)])).
Proof.
  intros Hmiss Hdecode. unfold fetchArtworks. rewrite Hmiss.
  unfold decode in Hdecode.
  unfold bind, try_catch, set_state, issue_fetch, lift, console_error. simpl.
  destruct (await_json (remote (requests w) (page, pageSize))) as [data|e'];
    simpl in Hdecode.
  - by rewrite Hdecode.
  - by inversion Hdecode.
Qed.

(** A miss whose records are mapped: the page is cached and shown before
    the pagination metadata is read. *)
Lemma fetchArtworks_miss_mapped env page pageSize w data mapped :
  pageCache env !! page = None ->
  remote (requests w) (page, pageSize) = Json data ->
  mappedData data = Ok mapped ->
  fetchArtworks remote env page pageSize w
  = (Ok tt,
     let shown :=
       setArtworks mapped
         (setPageCache (fun prev => <[page := mapped]> prev)
            (setLoading true (ui w))) in
     match result_bind (get_prop data "pagination")
             (fun pagination => get_prop pagination "total") with
     | Ok total =>
         mkWorld (setLoading false (setTotalRecords total shown))
           (console w) (requests w ++ [(page, pageSize)])
     | Throw e =>
         mkWorld (setLoading false shown)
           (console w ++ [ErrorFetchingArtworks e])
           (requests w ++ [(page, pageSize)])
     end).
Proof.
  intros Hmiss Hjson Hmapped. unfold fetchArtworks. rewrite Hmiss.
  unfold bind, try_catch, set_state, issue_fetch, lift, console_error. simpl.
  rewrite Hjson. simpl. rewrite Hmapped. simpl.
  destruct (get_prop data "pagination") as [pagination|e]; simpl; [|done].
  by destruct (get_prop pagination "total").
Qed.

Lemma start_fetches_run env pageNumbers : forall newCache pending w,
  start_fetches remote env pageNumbers newCache pending w
  = (Ok (cached_pages env pageNumbers newCache,
         pending ++ pending_fetches remote env pageNumbers (requests w)),
     mkWorld (ui w) (console w)
       (requests w ++ uncached_requests env pageNumbers)).
Proof.
  induction pageNumbers as [|pageNum rest IH]; intros newCache pending w; simpl.
  - unfold ret. rewrite !app_nil_r. by destruct w.
  - destruct (pageCache env !! pageNum) as [cached|].
    + apply IH.
    + unfold bind, issue_fetch. rewrite IH. simpl.
      by rewrite <- !app_assoc.
Qed.

Lemma finish_fetches_run arrivals : forall newCache w,
  finish_fetches arrivals newCache w
  = (Ok (settle arrivals newCache),
     mkWorld (ui w) (console w ++ settle_errors arrivals) (requests w)).
Proof.
  induction arrivals as [|[pageNum response] rest IH]; intros newCache w; simpl.
  - unfold ret. rewrite app_nil_r. by destruct w.
  - unfold bind, finish_fetch, try_catch, lift, ret, console_error, decode.
    destruct (await_json response) as [data|e]; simpl.
    + destruct (mappedData data) as [mapped|e]; simpl.
      * apply IH.
      * rewrite IH. simpl. by rewrite <- app_assoc.
    + rewrite IH. simpl. by rewrite <- app_assoc.
Qed.

Lemma prefetchPages_run arrival_order env pageNumbers w :
  let pending := pending_fetches remote env pageNumbers (requests w) in
  let newCache := prefetched remote arrival_order env pageNumbers (requests w) in
  prefetchPages remote arrival_order env pageNumbers w
  = (Ok newCache,
     mkWorld (setPageCache (fun prev => newCache ∪ prev) (ui w))
       (console w ++ settle_errors (arrival_order pending))
       (requests w ++ uncached_requests env pageNumbers)).
Proof.
  intros pending newCache. unfold prefetchPages.
  rewrite (bind_ok _ _ _ _ _ (start_fetches_run env pageNumbers ∅ [] w)).
  simpl.
  rewrite (bind_ok _ _ _ _ _ (finish_fetches_run _ _ _)).
  done.
Qed.

Lemma handleAutoSelect_run maxLength arrival_order env w count plan :
  selectCount env = Some count -> 0 < count ->
  calculatePagesNeeded maxLength env count (first env / rows env + 1) = Ok plan ->
  let pending := pending_fetches remote env plan (requests w) in
  let newCache := prefetched remote arrival_order env plan (requests w) in
  handleAutoSelect remote maxLength arrival_order env w
  = (Ok tt,
     mkWorld
       (setIsSelecting false
          (setSelectedArtworks
             (select_loop newCache (pageCache env) plan count [])
             (setPageCache (fun prev => newCache ∪ prev)
                (setIsSelecting true (ui w)))))
       (console w ++ settle_errors (arrival_order pending))
       (requests w ++ uncached_requests env plan)).
Proof.
  intros Hcount Hpos Hplan pending newCache. unfold handleAutoSelect.
  rewrite Hcount. simpl.
  replace (count =? 0) with false by lia.
  replace (count <=? 0) with false by lia.
  simpl. rewrite Hplan.
  unfold bind at 1. unfold set_state at 1. simpl.
  unfold bind at 1. unfold try_catch.
  unfold bind at 1. unfold lift at 1.
  unfold bind at 1. rewrite prefetchPages_run. done.
Qed.

(** A bulk selection whose planner throws: the exception is caught and
    logged, the busy flag is cleared, nothing else has changed. *)
Lemma handleAutoSelect_thrown maxLength arrival_order env w count e :
  selectCount env = Some count -> 0 < count ->
  calculatePagesNeeded maxLength env count (first env / rows env + 1) = Throw e ->
  handleAutoSelect remote maxLength arrival_order env w
  = (Ok tt,
     mkWorld (setIsSelecting false (setIsSelecting true (ui w)))
       (console w ++ [ErrorInBulkSelection e]) (requests w)).
Proof.
  intros Hcount Hpos Hplan. unfold handleAutoSelect.
  rewrite Hcount. simpl.
  replace (count =? 0) with false by lia.
  replace (count <=? 0) with false by lia.
  simpl. rewrite Hplan.
  unfold bind at 1. unfold set_state at 1. simpl.
  unfold bind at 1. unfold try_catch.
  unfold bind at 1. unfold lift at 1. done.
Qed.

End Runs.

(** * The map returned by the prefetch *)

Section Prefetched.

Variable remote : list request -> request -> fetch_outcome.

Lemma settle_other arrivals pageNum : forall newCache,
  (forall response, (pageNum, response) ∈ arrivals ->
                    exists e, decode response = Throw e) ->
  settle arrivals newCache !! pageNum = newCache !! pageNum.
Proof.
  induction arrivals as [|[p response] rest IH]; intros newCache Hfail; simpl.
  - done.
  - rewrite IH.
    + destruct (decode response) as [mapped|e] eqn:Hdecode; [|done].
      destruct (decide (p = pageNum)) as [->|Hne].
      * destruct (Hfail response) as [e He]; [by left|congruence].
      * by rewrite lookup_insert_ne.
    + intros response' Hin. apply Hfail. by right.
Qed.

Lemma settle_absent arrivals pageNum newCache :
  pageNum ∉ arrivals.*1 ->
  settle arrivals newCache !! pageNum = newCache !! pageNum.
Proof.
  intros Hnotin. apply settle_other. intros response Hin.
  exfalso. apply Hnotin. apply list_elem_of_fmap. by exists (pageNum, response).
Qed.

Lemma settle_stored arrivals pageNum response mapped : forall newCache,
  NoDup arrivals.*1 ->
  (pageNum, response) ∈ arrivals ->
  decode response = Ok mapped ->
  settle arrivals newCache !! pageNum = Some mapped.
Proof.
  induction arrivals as [|[p response'] rest IH];
    intros newCache Hnodup Hin Hdecode; simpl.
  - by apply elem_of_nil in Hin.
  - rewrite fmap_cons in Hnodup. apply NoDup_cons in Hnodup as [Hfresh Hnodup].
    apply elem_of_cons in Hin as [Heq|Hin].
    + inversion Heq; subst p response'. rewrite Hdecode.
      rewrite settle_absent by done. by rewrite lookup_insert_eq.
    + by apply IH.
Qed.

(** The order in which the responses arrive does not change what the
    callbacks store, as long as no page is fetched twice. *)
Lemma settle_perm arrivals arrivals' :
  arrivals ≡ₚ arrivals' ->
  NoDup arrivals.*1 ->
  forall newCache, settle arrivals newCache = settle arrivals' newCache.
Proof.
  induction 1 as [|[p o] l l' Hperm IH|[p o] [q o'] l|l l' l'' H1 IH1 H2 IH2];
    intros Hnodup newCache; simpl.
  - done.
  - rewrite fmap_cons in Hnodup. apply NoDup_cons in Hnodup as [_ Hnodup].
    by apply IH.
  - rewrite !fmap_cons in Hnodup. simpl in Hnodup.
    apply NoDup_cons in Hnodup as [Hne _].
    assert (q <> p) as Hqp by (intros ->; apply Hne; by left).
    destruct (decode o) as [m|e], (decode o') as [m'|e']; try done.
    by rewrite insert_insert_ne.
  - rewrite IH1 by done. apply IH2. by rewrite <- H1.
Qed.

Lemma cached_pages_hit env pageNumbers pageNum cached : forall newCache,
  pageNum ∈ pageNumbers ->
  pageCache env !! pageNum = Some cached ->
  cached_pages env pageNumbers newCache !! pageNum = Some cached.
Proof.
  assert (forall l nc, nc !! pageNum = Some cached ->
            pageCache env !! pageNum = Some cached ->
            cached_pages env l nc !! pageNum = Some cached) as Hkeep.
  { induction l as [|p l IH]; intros nc Hnc Hhit; simpl; [done|].
    destruct (pageCache env !! p) as [c|] eqn:Hp; [|by apply IH].
    apply IH; [|done].
    destruct (decide (p = pageNum)) as [->|Hne].
    - rewrite lookup_insert_eq. congruence.
    - by rewrite lookup_insert_ne. }
  induction pageNumbers as [|p rest IH]; intros newCache Hin Hhit; simpl.
  - by apply elem_of_nil in Hin.
  - apply elem_of_cons in Hin as [->|Hin].
    + rewrite Hhit. apply Hkeep; [|done]. by rewrite lookup_insert_eq.
    + destruct (pageCache env !! p); by apply IH.
Qed.

Lemma cached_pages_miss env pageNumbers pageNum : forall newCache,
  pageCache env !! pageNum = None ->
  cached_pages env pageNumbers newCache !! pageNum = newCache !! pageNum.
Proof.
  induction pageNumbers as [|p rest IH]; intros newCache Hmiss; simpl; [done|].
  destruct (pageCache env !! p) as [c|] eqn:Hp; [|by apply IH].
  rewrite IH by done. rewrite lookup_insert_ne; [done|]. congruence.
Qed.

(** Every entry of the copied pages is an entry of the cache it was copied
    from, or was already there. *)
Lemma cached_pages_from_cache env pageNumbers pageNum recs : forall newCache,
  cached_pages env pageNumbers newCache !! pageNum = Some recs ->
  pageCache env !! pageNum = Some recs \/ newCache !! pageNum = Some recs.
Proof.
  induction pageNumbers as [|p rest IH]; intros newCache Hlookup;
    simpl in Hlookup; [by right|].
  destruct (pageCache env !! p) as [c|] eqn:Hp; [|by apply IH].
  apply IH in Hlookup as [Hcache|Hnew]; [by left|].
  destruct (decide (p = pageNum)) as [->|Hne].
  - rewrite lookup_insert_eq in Hnew. left. congruence.
  - rewrite lookup_insert_ne in Hnew by done. by right.
Qed.

Lemma pending_fetches_keys env pageNumbers pageNum : forall log,
  pageNum ∈ (pending_fetches remote env pageNumbers log).*1 <->
  pageNum ∈ pageNumbers /\ pageCache env !! pageNum = None.
Proof.
  induction pageNumbers as [|p rest IH]; intros log; simpl.
  - split; [intros Hin; by apply elem_of_nil in Hin|].
    intros [Hin _]. by apply elem_of_nil in Hin.
  - destruct (pageCache env !! p) as [c|] eqn:Hp.
    + rewrite IH. rewrite elem_of_cons. split.
      * intros [Hin Hmiss]. split; [by right|done].
      * intros [[->|Hin] Hmiss]; [congruence|done].
    + rewrite fmap_cons. simpl. rewrite !elem_of_cons, IH. split.
      * intros [->|[Hin Hmiss]]; [split; [by left|done]|split; [by right|done]].
      * intros [[->|Hin] Hmiss]; [by left|by right].
Qed.

Lemma pending_fetches_NoDup env pageNumbers : forall log,
  NoDup pageNumbers -> NoDup (pending_fetches remote env pageNumbers log).*1.
Proof.
  induction pageNumbers as [|p rest IH]; intros log Hnodup; simpl.
  - constructor.
  - apply NoDup_cons in Hnodup as [Hfresh Hnodup].
    destruct (pageCache env !! p) as [c|] eqn:Hp; [by apply IH|].
    rewrite fmap_cons. apply NoDup_cons. split; [|by apply IH].
    simpl. rewrite pending_fetches_keys. by intros [Hin _].
Qed.

(** Every pending outcome is the remote's answer to a request for that page
    at the current page size. *)
Lemma pending_fetches_outcome env pageNumbers pageNum response : forall log,
  (pageNum, response) ∈ pending_fetches remote env pageNumbers log ->
  exists log', response = remote log' (pageNum, rows env).
Proof.
  induction pageNumbers as [|p rest IH]; intros log Hin; simpl in Hin.
  - by apply elem_of_nil in Hin.
  - destruct (pageCache env !! p) as [c|]; [by eapply IH|].
    apply elem_of_cons in Hin as [Heq|Hin]; [|by eapply IH].
    inversion Heq; subst. by exists log.
Qed.

(** The page data the assembly loop reads for a planned page is what the
    page contributes: cached records, fetched records, or nothing. *)
Lemma page_data_prefetched arrival_order env pageNumbers log pageNum :
  (forall l, arrival_order l ≡ₚ l) ->
  NoDup pageNumbers ->
  pageNum ∈ pageNumbers ->
  page_data (prefetched remote arrival_order env pageNumbers log)
    (pageCache env) pageNum
  = page_records env (pending_fetches remote env pageNumbers log) pageNum.
Proof.
  intros Hperm Hnodup Hin. unfold page_data, page_records, prefetched.
  pose proof (pending_fetches_NoDup env pageNumbers log Hnodup) as Hkeys.
  rewrite (settle_perm _ _ (Hperm _)) by (by rewrite (Hperm _)).
  destruct (pageCache env !! pageNum) as [cached|] eqn:Hcache.
  - rewrite settle_absent.
    + by rewrite (cached_pages_hit _ _ _ cached).
    + rewrite pending_fetches_keys. intros [_ Hmiss]. congruence.
  - destruct (list_to_map (pending_fetches remote env pageNumbers log)
                !! pageNum) as [response|] eqn:Hpending.
    + apply elem_of_list_to_map in Hpending; [|done].
      destruct (decode response) as [mapped|e] eqn:Hdecode.
      * by rewrite (settle_stored _ _ response mapped).
      * rewrite settle_other.
        -- rewrite cached_pages_miss by done. by rewrite lookup_empty.
        -- intros response' Hin'.
           assert (response' = response) as ->; [|by exists e].
           apply (elem_of_list_to_map (M:=gmap Z)) in Hin'; [|done].
           apply (elem_of_list_to_map (M:=gmap Z)) in Hpending; [|done].
           congruence.
    + apply not_elem_of_list_to_map in Hpending.
      exfalso. apply Hpending. by apply pending_fetches_keys.
Qed.

End Prefetched.

(** * The assembly loop and the bulk selection *)

Section Assembly.

Variable remote : list request -> request -> fetch_outcome.

(** The loop returns the first [remaining] records of the planned pages'
    data, concatenated in plan order. *)
Lemma select_loop_take fetchedData cache pagesToFetch : forall remaining selected,
  0 < remaining ->
  select_loop fetchedData cache pagesToFetch remaining selected
  = selected
    ++ take (Z.to_nat remaining)
         (concat (page_data fetchedData cache <$> pagesToFetch)).
Proof.
  induction pagesToFetch as [|pageNum rest IH]; intros remaining selected Hpos.
  - simpl. by rewrite take_nil, app_nil_r.
  - simpl. fold (page_data fetchedData cache pageNum).
    set (pageData := page_data fetchedData cache pageNum).
    remember (Z.min remaining (Z.of_nat (length pageData))) as toTake
      eqn:HtoTake.
    assert (0 <= toTake) as Hnonneg by lia.
    unfold slice0. replace (toTake <? 0) with false by lia.
    destruct (remaining - toTake <=? 0) eqn:Hbreak.
    + apply Z.leb_le in Hbreak.
      assert (toTake = remaining) as Heq by lia. rewrite Heq.
      rewrite take_app_le by lia. done.
    + apply Z.leb_gt in Hbreak.
      assert (toTake = Z.of_nat (length pageData)) as Heq by lia. rewrite Heq.
      rewrite IH by lia. rewrite Nat2Z.id, firstn_all.
      rewrite take_app_ge by lia.
      rewrite <- app_assoc. do 3 f_equal. lia.
Qed.

(** A bulk selection with a positive count and a page size of at least one
    finishes, leaves the busy flag cleared, merges the prefetched pages into
    the cache and selects the first [count] records that the planned pages
    contribute, in plan order. *)
Lemma handleAutoSelect_selects maxLength arrival_order env w count :
  selectCount env = Some count -> 0 < count -> 1 <= rows env ->
  (Z.to_nat count <= maxLength)%nat ->
  (forall l, arrival_order l ≡ₚ l) ->
  let plan := seqZ (first env / rows env + 1) (ceil_div count (rows env)) in
  let pending := pending_fetches remote env plan (requests w) in
  exists w',
    handleAutoSelect remote maxLength arrival_order env w = (Ok tt, w')
    /\ selectedArtworks (ui w')
       = take (Z.to_nat count) (concat (page_records env pending <$> plan))
    /\ isSelecting (ui w') = false
    /\ pageCache (ui w')
       = prefetched remote arrival_order env plan (requests w) ∪ pageCache (ui w)
    /\ requests w' = requests w ++ uncached_requests env plan.
Proof.
  intros Hcount Hpos Hrows Hfuel Hperm plan pending.
  eexists. split.
  - apply handleAutoSelect_run; [done|done|].
    by apply calculatePagesNeeded_run.
  - simpl. split; [|done].
    rewrite select_loop_take by done. simpl. do 2 f_equal.
    apply list_fmap_ext. intros i pageNum Hin.
    apply page_data_prefetched; [done|apply NoDup_seqZ|].
    by eapply list_elem_of_lookup_2.
Qed.

Lemma mapItems_objects (items : list (list (string * jsval))) :
  mapItems (VObj <$> items) = Ok (normalize <$> items).
Proof.
  induction items as [|props rest IH]; [done|].
  rewrite !fmap_cons.
  change (mapItems (VObj props :: (VObj <$> rest)))
    with (result_bind (mapItem (VObj props)) (fun a =>
          result_bind (mapItems (VObj <$> rest)) (fun l => Ok (a :: l)))).
  by rewrite IH.
Qed.

Lemma decode_serves ds log page limit :
  serves remote ds -> 1 <= page -> 1 <= limit ->
  decode (remote log (page, limit)) = Ok (normalize <$> page_slice ds page limit).
Proof.
  intros Hserves Hpage Hlimit.
  destruct (Hserves log page limit Hpage Hlimit)
    as (data & pagination & -> & Hdata & _).
  unfold decode, mappedData. simpl. rewrite Hdata. simpl.
  apply mapItems_objects.
Qed.

Lemma page_slice_fmap {A B : Type} (f : A -> B) (ds : list A) page limit :
  page_slice (f <$> ds) page limit = f <$> page_slice ds page limit.
Proof. unfold page_slice. by rewrite fmap_take, fmap_drop. Qed.

(** Consecutive pages of a dataset, concatenated, are a contiguous run of
    the dataset that starts at the first page's offset. *)
Lemma concat_page_slices {A : Type} (ds : list A) rows n : forall page,
  1 <= page -> 1 <= rows ->
  concat ((fun p => page_slice ds p rows) <$> seqZ page (Z.of_nat n))
  = take (n * Z.to_nat rows) (drop (Z.to_nat ((page - 1) * rows)) ds).
Proof.
  induction n as [|n IH]; intros page Hpage Hrows.
  - by rewrite seqZ_nil.
  - rewrite seqZ_cons by lia.
    replace (Z.pred (Z.of_nat (S n))) with (Z.of_nat n) by lia.
    rewrite fmap_cons. simpl concat. rewrite IH by lia.
    unfold page_slice.
    replace (Z.to_nat ((Z.succ page - 1) * rows))
      with (Z.to_nat ((page - 1) * rows) + Z.to_nat rows)%nat by nia.
    rewrite <- drop_drop, take_take_drop. f_equal.
Qed.

(** Over a fully available dataset every planned page contributes its page
    of the dataset. *)
Lemma page_records_dataset ds env plan log pageNum :
  serves remote ds -> cache_consistent ds env ->
  1 <= rows env -> 1 <= pageNum -> pageNum ∈ plan ->
  page_records env (pending_fetches remote env plan log) pageNum
  = normalize <$> page_slice ds pageNum (rows env).
Proof.
  intros Hserves Hcache Hrows Hpage Hin. unfold page_records.
  destruct (pageCache env !! pageNum) as [cached|] eqn:Hlookup.
  - by apply Hcache.
  - destruct (list_to_map (pending_fetches remote env plan log) !! pageNum)
      as [response|] eqn:Hpending.
    + apply elem_of_list_to_map_2 in Hpending.
      apply pending_fetches_outcome in Hpending as [log' ->].
      by rewrite (decode_serves ds).
    + apply not_elem_of_list_to_map in Hpending.
      exfalso. apply Hpending. by apply pending_fetches_keys.
Qed.

End Assembly.

(** * Further facts about the plan, the prefetch and the sample remotes *)

Section Support.

Variable remote : list request -> request -> fetch_outcome.

(** Whatever the page size, a plan that is returned is a run of consecutive
    page numbers. *)
Lemma while_loop_shape rows room : forall s plan,
  while_loop room rows s = Ok plan ->
  exists k : nat, plan = pages s ++ seqZ (page s) (Z.of_nat k).
Proof.
  induction room as [|room IH]; intros s plan Hrun; simpl in Hrun.
  - destruct (0 <? remaining s); [done|].
    inversion Hrun. exists 0%nat. by rewrite app_nil_r.
  - destruct (0 <? remaining s).
    + apply IH in Hrun as [k ->]. exists (S k). simpl.
      rewrite (seqZ_cons (page s) (Z.of_nat (S k))) by lia.
      rewrite <- app_assoc. simpl. do 3 f_equal; lia.
    + inversion Hrun. exists 0%nat. by rewrite app_nil_r.
Qed.

Lemma calculatePagesNeeded_NoDup maxLength env count currentPage plan :
  calculatePagesNeeded maxLength env count currentPage = Ok plan -> NoDup plan.
Proof.
  intros Hplan. apply while_loop_shape in Hplan as [k ->]. simpl.
  apply NoDup_seqZ.
Qed.

Lemma rejected_false selectCount :
  rejected selectCount = false ->
  exists count, selectCount = Some count /\ 0 < count.
Proof.
  destruct selectCount as [count|]; simpl; [|done].
  intros Hguard. exists count. split; [done|]. lia.
Qed.

Lemma settle_errors_reported arrivals pageNum response e :
  (pageNum, response) ∈ arrivals ->
  decode response = Throw e ->
  ErrorPrefetchingPage pageNum e ∈ settle_errors arrivals.
Proof.
  induction arrivals as [|[p o] rest IH]; intros Hin Hdecode; simpl.
  - by apply elem_of_nil in Hin.
  - apply elem_of_cons in Hin as [Heq|Hin].
    + inversion Heq; subst p o. rewrite Hdecode. by left.
    + destruct (decode o); [by apply IH|]. right. by apply IH.
Qed.

(** Every page of the returned map is a copy of a cached page or belongs to
    a page that was not cached. *)
Lemma prefetched_from_cache arrival_order env pageNumbers log pageNum recs :
  (forall l, arrival_order l ≡ₚ l) ->
  prefetched remote arrival_order env pageNumbers log !! pageNum = Some recs ->
  pageCache env !! pageNum = Some recs \/ pageCache env !! pageNum = None.
Proof.
  intros Hperm Hlookup. unfold prefetched in Hlookup.
  destruct (decide
              (pageNum ∈ (arrival_order
                            (pending_fetches remote env pageNumbers log)).*1))
    as [Hin|Hnotin].
  - rewrite (Hperm _) in Hin. apply pending_fetches_keys in Hin as [_ Hmiss].
    by right.
  - rewrite settle_absent in Hlookup by done.
    apply cached_pages_from_cache in Hlookup as [Hcache|Hempty]; [by left|].
    by rewrite lookup_empty in Hempty.
Qed.

(** Merging the returned map keeps every entry of a cache that the render's
    cache agrees with. *)
Lemma prefetched_union_extends arrival_order env pageNumbers log
    (prev : gmap Z (list Artworks.t)) :
  (forall l, arrival_order l ≡ₚ l) ->
  pageCache env = prev ->
  prev ⊆ prefetched remote arrival_order env pageNumbers log ∪ prev.
Proof.
  intros Hperm <-. apply map_subseteq_spec. intros pageNum recs Hprev.
  apply lookup_union_Some_raw.
  destruct (prefetched remote arrival_order env pageNumbers log !! pageNum)
    as [recs'|] eqn:Hnew; [left|by right].
  apply (prefetched_from_cache _ _ _ _ _ _ Hperm) in Hnew as [Hsame|Hnone];
    congruence.
Qed.

(** The cache after [fetchArtworks]: untouched, or extended by the page that
    was missing. *)
Lemma fetchArtworks_cache env page pageSize w :
  pageCache (ui (snd (fetchArtworks remote env page pageSize w)))
  = pageCache (ui w)
  \/ (pageCache env !! page = None
      /\ exists mapped,
           pageCache (ui (snd (fetchArtworks remote env page pageSize w)))
           = <[page := mapped]> (pageCache (ui w))).
Proof.
  destruct (pageCache env !! page) as [cached|] eqn:Hlookup.
  - left. by rewrite (fetchArtworks_hit _ _ _ _ cached).
  - destruct (decode (remote (requests w) (page, pageSize)))
      as [mapped|e] eqn:Hdecode.
    + right. split; [done|]. exists mapped.
      unfold decode in Hdecode.
      destruct (remote (requests w) (page, pageSize)) as [| |data] eqn:Hjson;
        try done.
      simpl in Hdecode.
      rewrite (fetchArtworks_miss_mapped _ _ _ _ _ data mapped) by done.
      simpl.
      by destruct (result_bind (get_prop data "pagination")
                     (fun pagination => get_prop pagination "total")).
    + left. by rewrite (fetchArtworks_miss_failed _ _ _ _ _ e).
Qed.

(** The three ways a bulk selection can go: rejected by the guard, run to
    its end, or cut short by an exception of the planner. *)
Lemma handleAutoSelect_outcomes maxLength arrival_order env w :
  (rejected (selectCount env) = true
   /\ handleAutoSelect remote maxLength arrival_order env w = (Ok tt, w))
  \/ (exists count plan,
        selectCount env = Some count /\ 0 < count
        /\ calculatePagesNeeded maxLength env count (first env / rows env + 1)
           = Ok plan
        /\ handleAutoSelect remote maxLength arrival_order env w
           = (Ok tt,
              mkWorld
                (setIsSelecting false
                   (setSelectedArtworks
                      (select_loop
                         (prefetched remote arrival_order env plan (requests w))
                         (pageCache env) plan count [])
                      (setPageCache
                         (fun prev =>
                            prefetched remote arrival_order env plan
                              (requests w)
                            ∪ prev)
                         (setIsSelecting true (ui w)))))
                (console w
                 ++ settle_errors
                      (arrival_order
                         (pending_fetches remote env plan (requests w))))
                (requests w ++ uncached_requests env plan)))
  \/ (exists count e,
        selectCount env = Some count /\ 0 < count
        /\ calculatePagesNeeded maxLength env count (first env / rows env + 1)
           = Throw e
        /\ handleAutoSelect remote maxLength arrival_order env w
           = (Ok tt,
              mkWorld (setIsSelecting false (setIsSelecting true (ui w)))
                (console w ++ [ErrorInBulkSelection e]) (requests w))).
Proof.
  destruct (rejected (selectCount env)) eqn:Hguard.
  - left. split; [done|]. unfold handleAutoSelect. by rewrite Hguard.
  - right. apply rejected_false in Hguard as (count & Hcount & Hpos).
    destruct (calculatePagesNeeded maxLength env count (first env / rows env + 1))
      as [plan|e] eqn:Hplan.
    + left. exists count, plan. repeat split; try done.
      by apply (handleAutoSelect_run remote maxLength _ env w count plan).
    + right. exists count, e. repeat split; try done.
      by apply (handleAutoSelect_thrown remote maxLength _ env w count e).
Qed.

End Support.

Lemma serve_serves ds : serves (serve ds) ds.
Proof.
  intros log page limit Hpage Hlimit. unfold serve. simpl.
  eexists _, _. split; [done|]. by repeat split.
Qed.

Lemma cache_consistent_empty ds env :
  pageCache env = ∅ -> cache_consistent ds env.
Proof.
  intros Hempty pageNum cached _ Hlookup.
  by rewrite Hempty, lookup_empty in Hlookup.
Qed.

(** * The bulk selector *)

Section BulkSelect.

Variable remote : list request -> request -> fetch_outcome.

(** C4. When the desired count is absent, zero or negative the bulk selector
    returns at once and changes nothing: the selection, the page cache and
    the busy flag are as before and no request has been issued. *)
Theorem handleAutoSelect_rejects maxLength arrival_order env w :
  selectCount env = None
  \/ (exists count, selectCount env = Some count /\ count <= 0) ->
  exists w',
    handleAutoSelect remote maxLength arrival_order env w = (Ok tt, w')
    /\ w' = w
    /\ selectedArtworks (ui w') = selectedArtworks (ui w)
    /\ pageCache (ui w') = pageCache (ui w)
    /\ isSelecting (ui w') = isSelecting (ui w)
    /\ requests w' = requests w.
Proof.
  intros Hcount. exists w. split; [|by repeat split].
  unfold handleAutoSelect.
  destruct Hcount as [->|(count & -> & Hle)]; [done|].
  simpl. replace (count <=? 0) with true by lia.
  by rewrite orb_true_r.
Qed.

(** Over a fully available dataset the bulk selector finishes and selects
    the run of the dataset that starts at the current page's offset. *)
Lemma handleAutoSelect_scan ds maxLength arrival_order env w count :
  serves remote ds -> cache_consistent ds env ->
  selectCount env = Some count -> 0 < count ->
  1 <= rows env -> 0 <= first env ->
  (Z.to_nat count <= maxLength)%nat ->
  (forall l, arrival_order l ≡ₚ l) ->
  exists w',
    handleAutoSelect remote maxLength arrival_order env w = (Ok tt, w')
    /\ selectedArtworks (ui w')
       = normalize
         <$> take (Z.to_nat count)
               (drop (Z.to_nat (first env / rows env * rows env)) ds).
Proof.
  intros Hserves Hcache Hcount Hpos Hrows Hfirst Hfuel Hperm.
  destruct (handleAutoSelect_selects remote maxLength arrival_order env w count
              Hcount Hpos Hrows Hfuel Hperm)
    as (w' & Hrun & Hselected & _).
  exists w'. split; [done|]. rewrite Hselected.
  pose proof (Z.div_pos (first env) (rows env) Hfirst ltac:(lia)) as Hdiv.
  pose proof (ceil_div_pos count (rows env) Hrows Hpos) as Hceil.
  pose proof (ceil_div_spec count (rows env) Hrows) as Hspec.
  rewrite (list_fmap_ext _
             (fun p => page_slice (normalize <$> ds) p (rows env))).
  - rewrite <- (Z2Nat.id (ceil_div count (rows env))) by lia.
    rewrite concat_page_slices by lia.
    rewrite take_take.
    replace (first env / rows env + 1 - 1) with (first env / rows env) by lia.
    rewrite <- fmap_drop, <- fmap_take. do 2 f_equal. nia.
  - intros i pageNum Hin. apply list_elem_of_lookup_2 in Hin.
    rewrite page_slice_fmap.
    apply (page_records_dataset remote ds); try done.
    apply elem_of_seqZ in Hin. lia.
Qed.

End BulkSelect.

Lemma handleAutoSelect_rejects_witness :
  handleAutoSelect unreachable 0 reverse (setSelectCount (Some (-3)) initial_state)
    (world_of initial_state)
  = (Ok tt, world_of initial_state).
Proof.
  destruct (handleAutoSelect_rejects unreachable 0 reverse
              (setSelectCount (Some (-3)) initial_state) (world_of initial_state))
    as (w' & Hrun & -> & _).
  - right. exists (-3). split; [reflexivity|]. by vm_compute.
  - exact Hrun.
Defined.

(** C1 (as amended). Over a fully available dataset, whose cached pages hold
    the dataset's pages at the current page size, a bulk selection with a
    positive count replaces the selection with the direct linear scan of the
    dataset from the current page's starting offset, in dataset order:
    [min(desiredCount, totalRecords - offset)] records, which is
    [min(desiredCount, totalRecords)] when the current page is the first.
    With pages of sizes 12, 12, 12 and a count of 20 from page 1 it takes 12
    records of page 1, 8 of page 2 and none of page 3, 20 in all. *)
Theorem handleAutoSelect_linear_scan :
  (forall remote ds maxLength arrival_order env w count,
      serves remote ds -> cache_consistent ds env ->
      selectCount env = Some count -> 0 < count ->
      1 <= rows env -> 0 <= first env ->
      (Z.to_nat count <= maxLength)%nat ->
      (forall l, arrival_order l ≡ₚ l) ->
      exists w',
        handleAutoSelect remote maxLength arrival_order env w = (Ok tt, w')
        /\ selectedArtworks (ui w')
           = normalize
             <$> take (Z.to_nat count)
                   (drop (Z.to_nat (first env / rows env * rows env)) ds)
        /\ Z.of_nat (length (selectedArtworks (ui w')))
           = Z.min count
               (Z.max 0
                  (Z.of_nat (length ds) - first env / rows env * rows env))
        /\ (first env < rows env ->
            selectedArtworks (ui w') = normalize <$> take (Z.to_nat count) ds
            /\ Z.of_nat (length (selectedArtworks (ui w')))
               = Z.min count (Z.of_nat (length ds))))
  /\ (exists w',
        handleAutoSelect (serve (catalogue 36)) 20 reverse (bulk_request 20 0)
          (world_of (bulk_request 20 0))
        = (Ok tt, w')
        /\ length <$> ((fun p => page_slice (catalogue 36) p 12) <$> [1; 2; 3])
           = [12; 12; 12]%nat
        /\ selectedArtworks (ui w')
           = normalize
             <$> (take 12 (page_slice (catalogue 36) 1 12)
                  ++ take 8 (page_slice (catalogue 36) 2 12)
                  ++ take 0 (page_slice (catalogue 36) 3 12))
        /\ length (selectedArtworks (ui w')) = 20%nat).
Proof.
  split.
  - intros remote ds maxLength arrival_order env w count
      Hserves Hcache Hcount Hpos Hrows Hfirst Hfuel Hperm.
    destruct (handleAutoSelect_scan remote ds maxLength arrival_order env w count
                Hserves Hcache Hcount Hpos Hrows Hfirst Hfuel Hperm)
      as (w' & Hrun & Hselected).
    exists w'. split; [done|]. split; [done|].
    pose proof (Z.div_pos (first env) (rows env) Hfirst ltac:(lia)) as Hdiv.
    rewrite Hselected. split.
    + rewrite length_fmap, length_take, length_drop.
      assert (0 <= first env / rows env * rows env) as Hoffset by nia.
      revert Hoffset. generalize (first env / rows env * rows env).
      intros offset Hoffset. lia.
    + intros Hfirst_page. rewrite Z.div_small by lia.
      change (Z.to_nat (0 * rows env)) with 0%nat. rewrite drop_0.
      split; [done|]. rewrite length_fmap, length_take. lia.
  - eexists. split; [by vm_compute|]. by vm_compute.
Qed.

Lemma handleAutoSelect_linear_scan_witness :
  exists w',
    handleAutoSelect (serve (catalogue 30)) 25 reverse (bulk_request 25 12)
      (world_of (bulk_request 25 12))
    = (Ok tt, w')
    /\ Z.of_nat (length (selectedArtworks (ui w'))) = 18.
Proof.
  destruct (proj1 handleAutoSelect_linear_scan
              (serve (catalogue 30)) (catalogue 30) 25%nat reverse
              (bulk_request 25 12) (world_of (bulk_request 25 12)) 25
              (serve_serves (catalogue 30))
              (cache_consistent_empty (catalogue 30) (bulk_request 25 12)
                 eq_refl)
              eq_refl ltac:(done) ltac:(done) ltac:(done)
              ltac:(vm_compute; lia) reverse_Permutation)
    as (w' & Hrun & _ & Hlength & _).
  exists w'. split; [exact Hrun|]. rewrite Hlength. reflexivity.
Defined.

(** The claim as stated fails on any page but the first.  In a session over
    30 records with a page size of 12, once the first page is loaded and the
    grid has moved to page 2, the total record count is 30 and a request for
    25 rows (a valid count, at most the total) selects the 18 records from
    offset 12 on, not [min(25, 30) = 25]. *)
Lemma handleAutoSelect_second_page_short :
  serves (serve (catalogue 30)) (catalogue 30)
  /\ cache_consistent (catalogue 30)
       (ui (enter_count 25 (second_page (serve (catalogue 30)))))
  /\ totalRecords (ui (enter_count 25 (second_page (serve (catalogue 30))))) = VNum 30
  /\ first (ui (enter_count 25 (second_page (serve (catalogue 30))))) = 12
  /\ rows (ui (enter_count 25 (second_page (serve (catalogue 30))))) = 12
  /\ exists w',
       handleAutoSelect (serve (catalogue 30)) 25 reverse
         (ui (enter_count 25 (second_page (serve (catalogue 30)))))
         (enter_count 25 (second_page (serve (catalogue 30))))
       = (Ok tt, w')
       /\ length (selectedArtworks (ui w')) = 18%nat
       /\ Z.of_nat (length (selectedArtworks (ui w')))
          <> Z.min 25 (Z.of_nat (length (catalogue 30))).
Proof.
  split; [apply serve_serves|]. split.
  - intros pageNum cached Hpage Hlookup.
    assert (pageCache (ui (enter_count 25 (second_page (serve (catalogue 30)))))
            = <[2 := normalize <$> page_slice (catalogue 30) 2 12]>
                (<[1 := normalize <$> page_slice (catalogue 30) 1 12]> ∅))
      as Hcache by (by vm_compute).
    rewrite Hcache in Hlookup.
    change (rows (ui (enter_count 25 (second_page (serve (catalogue 30)))))) with 12.
    apply lookup_insert_Some in Hlookup as [[<- <-]|[_ Hlookup]]; [done|].
    apply lookup_insert_Some in Hlookup as [[<- <-]|[_ Hlookup]]; [done|].
    by rewrite lookup_empty in Hlookup.
  - split; [by vm_compute|]. split; [by vm_compute|]. split; [by vm_compute|].
    eexists. split; [by vm_compute|]. split; by vm_compute.
Qed.

Section PageRecords.

Variable remote : list request -> request -> fetch_outcome.

Lemma page_records_pending env pageNumbers log pageNum response :
  NoDup pageNumbers ->
  (pageNum, response) ∈ pending_fetches remote env pageNumbers log ->
  page_records env (pending_fetches remote env pageNumbers log) pageNum
  = match decode response with
    | Ok mapped => mapped
    | Throw _ => []
    end.
Proof.
  intros Hnodup Hin. unfold page_records.
  assert (pageCache env !! pageNum = None) as ->.
  { eapply pending_fetches_keys. apply list_elem_of_fmap.
    by exists (pageNum, response). }
  rewrite (elem_of_list_to_map_1 _ pageNum response); [done| |done].
  by apply pending_fetches_NoDup.
Qed.

Lemma page_data_empty_union (fetchedData cache : gmap Z (list Artworks.t)) pageNum :
  page_data fetchedData cache pageNum
  = default [] ((fetchedData ∪ cache) !! pageNum).
Proof.
  unfold page_data. rewrite lookup_union.
  by destruct (fetchedData !! pageNum), (cache !! pageNum).
Qed.

End PageRecords.

(** C6. When a planned page fails to fetch, the bulk selection still
    finishes and clears the busy flag; the selection is made of the first
    [count] records of what the planned pages contribute, in plan order,
    where a page whose fetch failed contributes no record, a page whose
    fetch succeeded contributes its mapped records and a cached page its
    cached records. *)
Theorem handleAutoSelect_partial_failure remote maxLength arrival_order env w count :
  selectCount env = Some count -> 0 < count -> 1 <= rows env ->
  (Z.to_nat count <= maxLength)%nat ->
  (forall l, arrival_order l ≡ₚ l) ->
  let plan := seqZ (first env / rows env + 1) (ceil_div count (rows env)) in
  let pending := pending_fetches remote env plan (requests w) in
  exists w',
    handleAutoSelect remote maxLength arrival_order env w = (Ok tt, w')
    /\ isSelecting (ui w') = false
    /\ selectedArtworks (ui w')
       = take (Z.to_nat count) (concat (page_records env pending <$> plan))
    /\ (forall pageNum response e,
          (pageNum, response) ∈ pending -> decode response = Throw e ->
          page_records env pending pageNum = [])
    /\ (forall pageNum response mapped,
          (pageNum, response) ∈ pending -> decode response = Ok mapped ->
          page_records env pending pageNum = mapped)
    /\ (forall pageNum cached,
          pageCache env !! pageNum = Some cached ->
          page_records env pending pageNum = cached).
Proof.
  intros Hcount Hpos Hrows Hfuel Hperm plan pending.
  destruct (handleAutoSelect_selects remote maxLength arrival_order env w count
              Hcount Hpos Hrows Hfuel Hperm)
    as (w' & Hrun & Hselected & Hbusy & _).
  exists w'. repeat split; try done.
  - intros pageNum response e Hin Hdecode. unfold pending.
    rewrite (page_records_pending _ _ _ _ _ response);
      [by rewrite Hdecode|apply NoDup_seqZ|done].
  - intros pageNum response mapped Hin Hdecode. unfold pending.
    rewrite (page_records_pending _ _ _ _ _ response);
      [by rewrite Hdecode|apply NoDup_seqZ|done].
  - intros pageNum cached Hcached. unfold page_records. by rewrite Hcached.
Qed.

Lemma handleAutoSelect_partial_failure_witness :
  exists w',
    handleAutoSelect (serve_except [2] (catalogue 36)) 25 reverse
      (bulk_request 25 0) (world_of (bulk_request 25 0))
    = (Ok tt, w')
    /\ isSelecting (ui w') = false
    /\ Artworks.id <$> selectedArtworks (ui w')
       = VNum <$> (seqZ 0 12 ++ seqZ 24 12).
Proof.
  destruct (handleAutoSelect_partial_failure
              (serve_except [2] (catalogue 36)) 25 reverse
              (bulk_request 25 0) (world_of (bulk_request 25 0)) 25
              eq_refl ltac:(done) ltac:(done) ltac:(vm_compute; lia)
              reverse_Permutation)
    as (w' & Hrun & Hbusy & Hselected & _).
  exists w'. split; [exact Hrun|]. split; [exact Hbusy|].
  rewrite Hselected. vm_compute. reflexivity.
Defined.

(** C8. The selection of a bulk selection does not depend on the order in
    which the responses of the concurrent fetches arrive: two runs that
    differ only in the arrival order end with the same result, the same
    component state (selection and cache included) and the same requests.
    The selection is assembled by walking the plan in order: it is the first
    [count] records of the planned pages as the cache holds them after the
    prefetch, concatenated in plan order, hence a function of the desired
    count, the current page, the page size and that cache. *)
Theorem handleAutoSelect_arrival_order_independent
    remote maxLength order1 order2 env w :
  (forall l, order1 l ≡ₚ l) ->
  (forall l, order2 l ≡ₚ l) ->
  (fst (handleAutoSelect remote maxLength order1 env w),
   ui (snd (handleAutoSelect remote maxLength order1 env w)),
   requests (snd (handleAutoSelect remote maxLength order1 env w)))
  = (fst (handleAutoSelect remote maxLength order2 env w),
     ui (snd (handleAutoSelect remote maxLength order2 env w)),
     requests (snd (handleAutoSelect remote maxLength order2 env w)))
  /\ (forall count,
        selectCount env = Some count -> 0 < count -> 1 <= rows env ->
        (Z.to_nat count <= maxLength)%nat ->
        pageCache env = pageCache (ui w) ->
        exists w1,
          handleAutoSelect remote maxLength order1 env w = (Ok tt, w1)
          /\ selectedArtworks (ui w1)
             = take (Z.to_nat count)
                 (concat
                    ((fun pageNum => default [] (pageCache (ui w1) !! pageNum))
                     <$> seqZ (first env / rows env + 1)
                           (ceil_div count (rows env))))).
Proof.
  intros Hperm1 Hperm2. split.
  - destruct (rejected (selectCount env)) eqn:Hguard.
    + unfold handleAutoSelect. by rewrite Hguard.
    + apply rejected_false in Hguard as (count & Hcount & Hpos).
      destruct (calculatePagesNeeded maxLength env count (first env / rows env + 1))
        as [plan|e] eqn:Hplan.
      * rewrite !(handleAutoSelect_run remote maxLength _ env w count plan) by done.
        simpl.
        pose proof (calculatePagesNeeded_NoDup _ _ _ _ _ Hplan) as Hnodup.
        pose proof (pending_fetches_NoDup remote env plan (requests w) Hnodup)
          as Hkeys.
        assert (prefetched remote order1 env plan (requests w)
                = prefetched remote order2 env plan (requests w)) as ->; [|done].
        unfold prefetched.
        rewrite (settle_perm _ _ (Hperm1 _)) by (by rewrite (Hperm1 _)).
        by rewrite (settle_perm _ _ (Hperm2 _)) by (by rewrite (Hperm2 _)).
      * by rewrite !(handleAutoSelect_thrown remote maxLength _ env w count e)
          by done.
  - intros count Hcount Hpos Hrows Hfuel Hfresh.
    eexists. split.
    + apply handleAutoSelect_run; [done|done|].
      by apply calculatePagesNeeded_run.
    + simpl. rewrite select_loop_take by done. simpl. do 2 f_equal.
      apply list_fmap_ext. intros i pageNum _.
      rewrite page_data_empty_union. by rewrite Hfresh.
Qed.

Lemma handleAutoSelect_arrival_order_independent_witness :
  (fst (handleAutoSelect (serve_except [2] (catalogue 36)) 25 id
          (bulk_request 25 0) (world_of (bulk_request 25 0))),
   ui (snd (handleAutoSelect (serve_except [2] (catalogue 36)) 25 id
              (bulk_request 25 0) (world_of (bulk_request 25 0)))),
   requests (snd (handleAutoSelect (serve_except [2] (catalogue 36)) 25 id
                    (bulk_request 25 0) (world_of (bulk_request 25 0)))))
  = (fst (handleAutoSelect (serve_except [2] (catalogue 36)) 25 reverse
            (bulk_request 25 0) (world_of (bulk_request 25 0))),
     ui (snd (handleAutoSelect (serve_except [2] (catalogue 36)) 25 reverse
                (bulk_request 25 0) (world_of (bulk_request 25 0)))),
     requests (snd (handleAutoSelect (serve_except [2] (catalogue 36)) 25 reverse
                      (bulk_request 25 0) (world_of (bulk_request 25 0))))).
Proof.
  apply (proj1 (handleAutoSelect_arrival_order_independent
                  (serve_except [2] (catalogue 36)) 25 id reverse
                  (bulk_request 25 0) (world_of (bulk_request 25 0))
                  (fun l => reflexivity l) reverse_Permutation)).
Defined.

(** * The page fetcher and the page cache *)

(** C3 (as amended). A successful fetch of a page that is not in the cache
    stores the mapped records in the cache under that page number, through
    [fetchArtworks] as through [prefetchPages]; [fetchArtworks] also sets
    the total record count to the total of the response's pagination
    metadata, whereas [prefetchPages] leaves the total record count as it
    was.  [(pageNum, response)] in the pending fetches says that [pageNum]
    is a requested page missing from the cache and [response] the outcome
    of its request. *)
Theorem fetch_success_stores_page :
  (forall remote env page pageSize w data mapped pagination total,
      pageCache env !! page = None ->
      remote (requests w) (page, pageSize) = Json data ->
      mappedData data = Ok mapped ->
      get_prop data "pagination" = Ok pagination ->
      get_prop pagination "total" = Ok total ->
      exists w',
        fetchArtworks remote env page pageSize w = (Ok tt, w')
        /\ pageCache (ui w') = <[page := mapped]> (pageCache (ui w))
        /\ totalRecords (ui w') = total)
  /\ (forall remote arrival_order env pageNumbers w pageNum response mapped,
      (forall l, arrival_order l ≡ₚ l) ->
      NoDup pageNumbers ->
      (pageNum, response) ∈ pending_fetches remote env pageNumbers (requests w) ->
      decode response = Ok mapped ->
      exists newCache w',
        prefetchPages remote arrival_order env pageNumbers w = (Ok newCache, w')
        /\ newCache !! pageNum = Some mapped
        /\ pageCache (ui w') !! pageNum = Some mapped
        /\ totalRecords (ui w') = totalRecords (ui w)).
Proof.
  split.
  - intros remote env page pageSize w data mapped pagination total
      Hmiss Hjson Hmapped Hpagination Htotal.
    eexists. split.
    + by apply (fetchArtworks_miss_mapped remote env page pageSize w data mapped).
    + rewrite Hpagination. simpl. by rewrite Htotal.
  - intros remote arrival_order env pageNumbers w pageNum response mapped
      Hperm Hnodup Hin Hdecode.
    eexists _, _. split; [apply prefetchPages_run|].
    assert (prefetched remote arrival_order env pageNumbers (requests w)
              !! pageNum = Some mapped) as Hstored.
    { unfold prefetched. apply (settle_stored _ _ response).
      - rewrite (Hperm _). by apply pending_fetches_NoDup.
      - by rewrite (Hperm _).
      - done. }
    split; [done|]. split; [|done].
    simpl. apply lookup_union_Some_raw. by left.
Qed.

Lemma fetch_success_stores_page_witness :
  (exists w',
     fetchArtworks (serve (catalogue 30)) initial_state 2 12
       (world_of initial_state)
     = (Ok tt, w')
     /\ pageCache (ui w')
        = <[2 := normalize <$> page_slice (catalogue 30) 2 12]>
            (pageCache initial_state)
     /\ totalRecords (ui w') = VNum 30)
  /\ (exists newCache w',
        prefetchPages (serve (catalogue 30)) reverse initial_state [1; 2]
          (world_of initial_state)
        = (Ok newCache, w')
        /\ newCache !! 2 = Some (normalize <$> page_slice (catalogue 30) 2 12)
        /\ pageCache (ui w') !! 2
           = Some (normalize <$> page_slice (catalogue 30) 2 12)
        /\ totalRecords (ui w') = VNum 0).
Proof.
  split.
  - apply (proj1 fetch_success_stores_page (serve (catalogue 30)) initial_state
             2 12 (world_of initial_state) (page_body (catalogue 30) 2 12)
             (normalize <$> page_slice (catalogue 30) 2 12)
             (VObj [("total", VNum 30)]) (VNum 30));
      by vm_compute.
  - apply (proj2 fetch_success_stores_page (serve (catalogue 30)) reverse
             initial_state [1; 2] (world_of initial_state) 2
             (serve (catalogue 30) [(1, 12)] (2, 12))
             (normalize <$> page_slice (catalogue 30) 2 12)
             reverse_Permutation).
    + apply (NoDup_seqZ 1 2).
    + vm_compute. right. left.
    + by vm_compute.
Defined.

(** The claim as stated fails on the prefetch path.  The first page is
    loaded while the remote holds 30 records, so the total record count is
    30; the remote then holds 31.  The prefetch of pages 1 and 2 fetches
    page 2 with success, the response says 31 records in total, page 2 is
    cached, and the total record count of the component is still 30. *)
Lemma prefetchPages_leaves_total :
  totalRecords (ui (first_load (serve_then (catalogue 30) (catalogue 31))))
  = VNum 30
  /\ (exists data pagination,
        serve_then (catalogue 30) (catalogue 31)
          (requests (first_load (serve_then (catalogue 30) (catalogue 31))))
          (2, 12)
        = Json data
        /\ get_prop data "pagination" = Ok pagination
        /\ get_prop pagination "total" = Ok (VNum 31))
  /\ exists newCache w',
       prefetchPages (serve_then (catalogue 30) (catalogue 31)) reverse
         (ui (first_load (serve_then (catalogue 30) (catalogue 31)))) [1; 2]
         (first_load (serve_then (catalogue 30) (catalogue 31)))
       = (Ok newCache, w')
       /\ pageCache (ui w') !! 2
          = Some (normalize <$> page_slice (catalogue 31) 2 12)
       /\ totalRecords (ui w') = VNum 30
       /\ totalRecords (ui w') <> VNum 31.
Proof.
  split; [by vm_compute|]. split.
  - eexists _, _. by vm_compute.
  - eexists _, _. split; [by vm_compute|]. by vm_compute.
Qed.

Lemma page_data_missing (fetchedData cache : gmap Z (list Artworks.t)) pageNum :
  fetchedData !! pageNum = None -> cache !! pageNum = None ->
  page_data fetchedData cache pageNum = [].
Proof. intros Hfetched Hcache. unfold page_data. by rewrite Hfetched, Hcache. Qed.

(** C5 (as amended). A fetch of a page that fails before its records are
    mapped (the network request or the parsing of the body is rejected, the
    body has no array of records, an item is null) does not crash the
    caller, is reported to the console and leaves the page cache without
    that page.  In [prefetchPages] the page is absent from the returned map,
    so that the bulk selector reads it as an empty page; in [fetchArtworks]
    the rows on display are left as they were and the loading flag is
    cleared. *)
Theorem fetch_failure_contained :
  (forall remote env page pageSize w e,
      pageCache env !! page = None ->
      decode (remote (requests w) (page, pageSize)) = Throw e ->
      exists w',
        fetchArtworks remote env page pageSize w = (Ok tt, w')
        /\ pageCache (ui w') = pageCache (ui w)
        /\ artworks (ui w') = artworks (ui w)
        /\ loading (ui w') = false
        /\ console w' = console w ++ [ErrorFetchingArtworks e])
  /\ (forall remote arrival_order env pageNumbers w pageNum response e,
      (forall l, arrival_order l ≡ₚ l) ->
      NoDup pageNumbers ->
      (pageNum, response) ∈ pending_fetches remote env pageNumbers (requests w) ->
      decode response = Throw e ->
      exists newCache w',
        prefetchPages remote arrival_order env pageNumbers w = (Ok newCache, w')
        /\ newCache !! pageNum = None
        /\ page_data newCache (pageCache env) pageNum = []
        /\ pageCache (ui w') !! pageNum = pageCache (ui w) !! pageNum
        /\ ErrorPrefetchingPage pageNum e ∈ console w').
Proof.
  split.
  - intros remote env page pageSize w e Hmiss Hdecode.
    eexists. split; [by apply fetchArtworks_miss_failed|]. done.
  - intros remote arrival_order env pageNumbers w pageNum response e
      Hperm Hnodup Hin Hdecode.
    eexists _, _. split; [apply prefetchPages_run|].
    assert (pageCache env !! pageNum = None) as Hmiss.
    { eapply pending_fetches_keys. apply list_elem_of_fmap.
      by exists (pageNum, response). }
    pose proof (pending_fetches_NoDup remote env pageNumbers (requests w) Hnodup)
      as Hkeys.
    assert (prefetched remote arrival_order env pageNumbers (requests w)
              !! pageNum = None) as Habsent.
    { unfold prefetched. rewrite settle_other.
      - rewrite cached_pages_miss by done. apply lookup_empty.
      - intros response' Hin'. rewrite (Hperm _) in Hin'.
        assert (response' = response) as ->; [|by exists e].
        apply (elem_of_list_to_map (M:=gmap Z)) in Hin'; [|done].
        apply (elem_of_list_to_map (M:=gmap Z)) in Hin; [|done].
        congruence. }
    split; [done|]. split; [by apply page_data_missing|]. split.
    + simpl. by rewrite lookup_union_r.
    + simpl. apply elem_of_app. right.
      apply (settle_errors_reported _ _ response); [|done].
      by rewrite (Hperm _).
Qed.

Lemma fetch_failure_contained_witness :
  (exists w',
     fetchArtworks unreachable initial_state 1 12 (world_of initial_state)
     = (Ok tt, w')
     /\ pageCache (ui w') = pageCache initial_state
     /\ artworks (ui w') = []
     /\ loading (ui w') = false
     /\ console w' = [ErrorFetchingArtworks NetworkError])
  /\ (exists newCache w',
        prefetchPages (serve_except [2] (catalogue 36)) reverse initial_state
          [1; 2; 3] (world_of initial_state)
        = (Ok newCache, w')
        /\ newCache !! 2 = None
        /\ page_data newCache (pageCache initial_state) 2 = []
        /\ pageCache (ui w') !! 2 = None
        /\ ErrorPrefetchingPage 2 NetworkError ∈ console w').
Proof.
  split.
  - apply (proj1 fetch_failure_contained unreachable initial_state 1 12
             (world_of initial_state) NetworkError);
      by vm_compute.
  - apply (proj2 fetch_failure_contained (serve_except [2] (catalogue 36))
             reverse initial_state [1; 2; 3] (world_of initial_state) 2
             FetchRejected NetworkError reverse_Permutation).
    + apply (NoDup_seqZ 1 3).
    + vm_compute. right. left.
    + by vm_compute.
Defined.

(** The claim as stated fails in [fetchArtworks]: with page 1 on display, a
    fetch of page 2 that the network rejects leaves the rows of page 1 on
    display; no empty page takes their place. *)
Lemma fetchArtworks_failure_keeps_rows :
  exists w1 w2,
    fetchArtworks (serve_except [2] (catalogue 30)) initial_state 1 12
      (world_of initial_state)
    = (Ok tt, w1)
    /\ decode (serve_except [2] (catalogue 30) (requests w1) (2, 12))
       = Throw NetworkError
    /\ fetchArtworks (serve_except [2] (catalogue 30)) (ui w1) 2 12 w1
       = (Ok tt, w2)
    /\ artworks (ui w2) = normalize <$> page_slice (catalogue 30) 1 12
    /\ artworks (ui w2) <> [].
Proof.
  eexists _, _. split; [by vm_compute|]. split; [by vm_compute|].
  split; [by vm_compute|]. split; by vm_compute.
Qed.

(** A response whose records can be mapped but whose pagination metadata is
    missing: the page is cached and shown before the failure is caught. *)
Lemma fetchArtworks_missing_pagination remote env page pageSize w data mapped :
  pageCache env !! page = None ->
  remote (requests w) (page, pageSize) = Json data ->
  mappedData data = Ok mapped ->
  get_prop data "pagination" = Ok VUndefined ->
  exists w',
    fetchArtworks remote env page pageSize w = (Ok tt, w')
    /\ pageCache (ui w') = <[page := mapped]> (pageCache (ui w))
    /\ artworks (ui w') = mapped
    /\ totalRecords (ui w') = totalRecords (ui w)
    /\ console w' = console w ++ [ErrorFetchingArtworks TypeError].
Proof.
  intros Hmiss Hjson Hmapped Hpagination.
  eexists. split.
  - by apply (fetchArtworks_miss_mapped remote env page pageSize w data mapped).
  - by rewrite Hpagination.
Qed.

(** C7 (as amended). For a page that is in the cache [fetchArtworks] shows
    the cached page and issues no request.  Hence two calls in sequence for
    a page that is not cached at first, the first of which obtains records
    that can be mapped, issue exactly one request and show the same page
    both times. *)
Theorem fetchArtworks_cached_once :
  (forall remote env page pageSize w cached,
      pageCache env !! page = Some cached ->
      exists w',
        fetchArtworks remote env page pageSize w = (Ok tt, w')
        /\ requests w' = requests w
        /\ artworks (ui w') = cached)
  /\ (forall remote page pageSize w data mapped,
      pageCache (ui w) !! page = None ->
      remote (requests w) (page, pageSize) = Json data ->
      mappedData data = Ok mapped ->
      exists w1 w2,
        fetchArtworks remote (ui w) page pageSize w = (Ok tt, w1)
        /\ fetchArtworks remote (ui w1) page pageSize w1 = (Ok tt, w2)
        /\ requests w2 = requests w ++ [(page, pageSize)]
        /\ artworks (ui w1) = mapped
        /\ artworks (ui w2) = mapped).
Proof.
  split.
  - intros remote env page pageSize w cached Hhit.
    eexists. split; [by apply fetchArtworks_hit|]. done.
  - intros remote page pageSize w data mapped Hmiss Hjson Hmapped.
    pose proof (fetchArtworks_miss_mapped remote (ui w) page pageSize w
                  data mapped Hmiss Hjson Hmapped) as Hfirst.
    set (w1 := snd (fetchArtworks remote (ui w) page pageSize w)).
    assert (pageCache (ui w1) !! page = Some mapped
            /\ requests w1 = requests w ++ [(page, pageSize)]
            /\ artworks (ui w1) = mapped) as (Hcached & Hrequests & Hshown).
    { unfold w1. rewrite Hfirst. simpl.
      destruct (result_bind (get_prop data "pagination")
                  (fun pagination => get_prop pagination "total"));
        simpl; by rewrite lookup_insert_eq. }
    exists w1, (snd (fetchArtworks remote (ui w1) page pageSize w1)).
    split; [|split].
    + unfold w1. by rewrite Hfirst.
    + by rewrite (fetchArtworks_hit remote (ui w1) page pageSize mapped w1).
    + by rewrite (fetchArtworks_hit remote (ui w1) page pageSize mapped w1).
Qed.

Lemma fetchArtworks_cached_once_witness :
  exists w1 w2,
    fetchArtworks (serve (catalogue 30)) initial_state 2 12
      (world_of initial_state)
    = (Ok tt, w1)
    /\ fetchArtworks (serve (catalogue 30)) (ui w1) 2 12 w1 = (Ok tt, w2)
    /\ requests w2 = [(2, 12)]
    /\ artworks (ui w1) = normalize <$> page_slice (catalogue 30) 2 12
    /\ artworks (ui w2) = normalize <$> page_slice (catalogue 30) 2 12.
Proof.
  apply (proj2 fetchArtworks_cached_once (serve (catalogue 30)) 2 12
           (world_of initial_state) (page_body (catalogue 30) 2 12)
           (normalize <$> page_slice (catalogue 30) 2 12));
    by vm_compute.
Defined.

(** The claim as stated fails when the first fetch fails: nothing is cached,
    and the second call issues a second request. *)
Lemma fetchArtworks_failed_twice :
  exists w1 w2,
    pageCache (ui (world_of initial_state)) !! 1 = None
    /\ fetchArtworks unreachable initial_state 1 12 (world_of initial_state)
       = (Ok tt, w1)
    /\ fetchArtworks unreachable (ui w1) 1 12 w1 = (Ok tt, w2)
    /\ requests w2 = [(1, 12); (1, 12)]
    /\ length (requests w2) <> 1%nat.
Proof.
  eexists _, _. split; [by vm_compute|]. split; [by vm_compute|].
  split; [by vm_compute|]. split; by vm_compute.
Qed.

(** C9 (as amended). No handler ever evicts a page: the page numbers in the
    cache before [fetchArtworks], [prefetchPages], a bulk selection or a
    page navigation are in the cache afterwards, from whatever render the
    handler runs.  When the handler runs from a render whose cache is the
    current one (no other handler has stored a page since), every cached
    page also keeps exactly the same records; a handler that runs from an
    older render can replace the records of a page that was cached in the
    meantime. *)
Theorem pageCache_append_only :
  (forall remote env page pageSize w,
      pageCache env = pageCache (ui w) ->
      pageCache (ui w)
      ⊆ pageCache (ui (snd (fetchArtworks remote env page pageSize w))))
  /\ (forall remote arrival_order env pageNumbers w,
      (forall l, arrival_order l ≡ₚ l) ->
      pageCache env = pageCache (ui w) ->
      pageCache (ui w)
      ⊆ pageCache
          (ui (snd (prefetchPages remote arrival_order env pageNumbers w))))
  /\ (forall remote maxLength arrival_order env w,
      (forall l, arrival_order l ≡ₚ l) ->
      pageCache env = pageCache (ui w) ->
      pageCache (ui w)
      ⊆ pageCache
          (ui (snd (handleAutoSelect remote maxLength arrival_order env w))))
  /\ (forall remote env event w,
      pageCache env = pageCache (ui w) ->
      pageCache (ui w) ⊆ pageCache (ui (snd (onPage remote env event w))))
  /\ (forall value w,
      pageCache (ui w) ⊆ pageCache (ui (snd (onSelectionChange value w))))
  /\ (forall remote env page pageSize w,
      dom (pageCache (ui w))
      ⊆ dom (pageCache (ui (snd (fetchArtworks remote env page pageSize w)))))
  /\ (forall remote arrival_order env pageNumbers w,
      dom (pageCache (ui w))
      ⊆ dom (pageCache
               (ui (snd (prefetchPages remote arrival_order env pageNumbers w)))))
  /\ (forall remote maxLength arrival_order env w,
      dom (pageCache (ui w))
      ⊆ dom (pageCache
               (ui (snd (handleAutoSelect remote maxLength arrival_order env w)))))
  /\ (forall remote env event w,
      dom (pageCache (ui w))
      ⊆ dom (pageCache (ui (snd (onPage remote env event w))))).
Proof.
  assert (forall remote env page pageSize w,
            pageCache env = pageCache (ui w) ->
            pageCache (ui w)
            ⊆ pageCache (ui (snd (fetchArtworks remote env page pageSize w))))
    as Hfetch.
  { intros remote env page pageSize w Hfresh.
    destruct (fetchArtworks_cache remote env page pageSize w)
      as [->|(Hmiss & mapped & ->)]; [done|].
    apply insert_subseteq. by rewrite <- Hfresh. }
  assert (forall remote env page pageSize w,
            dom (pageCache (ui w))
            ⊆ dom (pageCache
                     (ui (snd (fetchArtworks remote env page pageSize w)))))
    as Hkeys.
  { intros remote env page pageSize w.
    destruct (fetchArtworks_cache remote env page pageSize w)
      as [->|(Hmiss & mapped & ->)]; [done|].
    rewrite dom_insert_L. set_solver. }
  split; [exact Hfetch|].
  split; [|split; [|split; [|split; [|split; [|split; [|split]]]]]].
  - intros remote arrival_order env pageNumbers w Hperm Hfresh.
    rewrite prefetchPages_run. simpl.
    by apply prefetched_union_extends.
  - intros remote maxLength arrival_order env w Hperm Hfresh.
    destruct (handleAutoSelect_outcomes remote maxLength arrival_order env w)
      as [(_ & ->)|[(count & plan & _ & _ & _ & ->)
          |(count & e & _ & _ & _ & ->)]]; simpl; [done| |done].
    by apply prefetched_union_extends.
  - intros remote env event w Hfresh. unfold onPage.
    unfold bind at 1. unfold set_state at 1.
    unfold bind at 1. unfold set_state at 1.
    exact (Hfetch remote env _ _
             (mkWorld
                (setRows (default 12 (ev_rows event))
                   (setFirst (default 0 (ev_first event)) (ui w)))
                (console w) (requests w))
             Hfresh).
  - intros value w. done.
  - exact Hkeys.
  - intros remote arrival_order env pageNumbers w.
    rewrite prefetchPages_run. simpl. rewrite dom_union_L. set_solver.
  - intros remote maxLength arrival_order env w.
    destruct (handleAutoSelect_outcomes remote maxLength arrival_order env w)
      as [(_ & ->)|[(count & plan & _ & _ & _ & ->)
          |(count & e & _ & _ & _ & ->)]]; simpl; [done| |done].
    rewrite dom_union_L. set_solver.
  - intros remote env event w. unfold onPage.
    unfold bind at 1. unfold set_state at 1.
    unfold bind at 1. unfold set_state at 1.
    exact (Hkeys remote env _ _
             (mkWorld
                (setRows (default 12 (ev_rows event))
                   (setFirst (default 0 (ev_first event)) (ui w)))
                (console w) (requests w))).
Qed.

Lemma pageCache_append_only_witness :
  pageCache initial_state
  ⊆ pageCache
      (ui (snd (fetchArtworks (serve (catalogue 30)) initial_state 1 12
                  (world_of initial_state))))
  /\ pageCache (ui (first_load (serve (catalogue 30))))
     ⊆ pageCache
         (ui (snd (prefetchPages (serve (catalogue 30)) reverse
                     (ui (first_load (serve (catalogue 30)))) [1; 2]
                     (first_load (serve (catalogue 30))))))
  /\ pageCache (ui (first_load (serve (catalogue 30))))
     ⊆ pageCache (ui (second_page (serve (catalogue 30))))
  /\ pageCache (ui render_before_bulk) ⊆ pageCache (ui after_bulk).
Proof.
  split; [|split; [|split]].
  - apply (proj1 pageCache_append_only (serve (catalogue 30)) initial_state
             1 12 (world_of initial_state) eq_refl).
  - apply (proj1 (proj2 pageCache_append_only) (serve (catalogue 30)) reverse
             (ui (first_load (serve (catalogue 30)))) [1; 2]
             (first_load (serve (catalogue 30)))
             reverse_Permutation eq_refl).
  - apply (proj1 (proj2 (proj2 (proj2 pageCache_append_only)))
             (serve (catalogue 30)) (ui (first_load (serve (catalogue 30))))
             (mkPageEvent (Some 12) (Some 12) (Some 1))
             (first_load (serve (catalogue 30))) eq_refl).
  - apply (proj1 (proj2 (proj2 pageCache_append_only)) changing_remote 20%nat
             reverse (ui render_before_bulk) render_before_bulk
             reverse_Permutation eq_refl).
Defined.

(** The claim as stated fails when handlers overlap.  The bulk selection
    stores page 2 with the records the server held then (identifiers 12 to
    23); the navigation to page 2 that was started before the bulk
    selection finished runs from a render in which page 2 is not cached,
    fetches it again and replaces the cached records with those the server
    holds now (identifiers 112 to 123). *)
Lemma pageCache_overwritten_by_overlap :
  pageCache (ui render_before_bulk) !! 2 = None
  /\ pageCache (ui after_bulk) !! 2
     = Some (normalize <$> page_slice (catalogue 30) 2 12)
  /\ pageCache (ui after_overlapping_navigation) !! 2
     = Some (normalize <$> page_slice (catalogue_from 100 30) 2 12)
  /\ ~ (pageCache (ui after_bulk)
        ⊆ pageCache (ui after_overlapping_navigation)).
Proof.
  assert (pageCache (ui after_bulk) !! 2
          = Some (normalize <$> page_slice (catalogue 30) 2 12)) as Hbefore
    by (by vm_compute).
  assert (pageCache (ui after_overlapping_navigation) !! 2
          = Some (normalize <$> page_slice (catalogue_from 100 30) 2 12))
    as Hafter by (by vm_compute).
  split; [by vm_compute|]. split; [exact Hbefore|]. split; [exact Hafter|].
  intros Hsub.
  pose proof (lookup_weaken _ _ _ _ Hbefore Hsub) as Hkept.
  rewrite Hafter in Hkept. vm_compute in Hkept. discriminate.
Qed.

(** * Further properties of the page fetcher and of navigation *)

Section Fetcher.

Variable remote : list request -> request -> fetch_outcome.

(** The four ways a call of [fetchArtworks] can go: a cache hit, a failure
    before the records are mapped, a failure after the page was stored, and
    a success. *)
Lemma fetchArtworks_outcomes env page pageSize w :
  (exists cached,
     pageCache env !! page = Some cached
     /\ fetchArtworks remote env page pageSize w
        = (Ok tt,
           mkWorld (setLoading false (setArtworks cached (ui w)))
             (console w) (requests w)))
  \/ (exists e,
        pageCache env !! page = None
        /\ fetchArtworks remote env page pageSize w
           = (Ok tt,
              mkWorld (setLoading false (setLoading true (ui w)))
                (console w ++ [ErrorFetchingArtworks e])
                (requests w ++ [(page, pageSize)])))
  \/ (exists mapped e,
        pageCache env !! page = None
        /\ fetchArtworks remote env page pageSize w
           = (Ok tt,
              mkWorld
                (setLoading false
                   (setArtworks mapped
                      (setPageCache (fun prev => <[page := mapped]> prev)
                         (setLoading true (ui w)))))
                (console w ++ [ErrorFetchingArtworks e])
                (requests w ++ [(page, pageSize)])))
  \/ (exists mapped total,
        pageCache env !! page = None
        /\ fetchArtworks remote env page pageSize w
           = (Ok tt,
              mkWorld
                (setLoading false
                   (setTotalRecords total
                      (setArtworks mapped
                         (setPageCache (fun prev => <[page := mapped]> prev)
                            (setLoading true (ui w))))))
                (console w) (requests w ++ [(page, pageSize)]))).
Proof.
  destruct (pageCache env !! page) as [cached|] eqn:Hlookup.
  - left. exists cached. split; [done|]. by apply fetchArtworks_hit.
  - right.
    destruct (decode (remote (requests w) (page, pageSize)))
      as [mapped|e] eqn:Hdecode.
    + right. unfold decode in Hdecode.
      destruct (remote (requests w) (page, pageSize)) as [| |data] eqn:Hjson;
        try done.
      simpl in Hdecode.
      pose proof (fetchArtworks_miss_mapped remote env page pageSize w data
                    mapped Hlookup Hjson Hdecode) as Hrun.
      simpl in Hrun.
      destruct (result_bind (get_prop data "pagination")
                  (fun pagination => get_prop pagination "total"))
        as [total|e].
      * right. by exists mapped, total.
      * left. by exists mapped, e.
    + left. exists e. split; [done|]. by apply fetchArtworks_miss_failed.
Qed.

(** Whatever the remote answers, [fetchArtworks] returns normally with the
    loading flag cleared, and the selection, the busy flag, the entered
    count, the paginator position and the selection mode are as before. *)
Theorem fetchArtworks_settles env page pageSize w :
  fst (fetchArtworks remote env page pageSize w) = Ok tt
  /\ loading (ui (snd (fetchArtworks remote env page pageSize w))) = false
  /\ selectedArtworks (ui (snd (fetchArtworks remote env page pageSize w)))
     = selectedArtworks (ui w)
  /\ isSelecting (ui (snd (fetchArtworks remote env page pageSize w)))
     = isSelecting (ui w)
  /\ selectCount (ui (snd (fetchArtworks remote env page pageSize w)))
     = selectCount (ui w)
  /\ first (ui (snd (fetchArtworks remote env page pageSize w))) = first (ui w)
  /\ rows (ui (snd (fetchArtworks remote env page pageSize w))) = rows (ui w)
  /\ rowClick (ui (snd (fetchArtworks remote env page pageSize w)))
     = rowClick (ui w).
Proof.
  destruct (fetchArtworks_outcomes env page pageSize w)
    as [(cached & _ & ->)|[(e & _ & ->)
        |[(mapped & e & _ & ->)|(mapped & total & _ & ->)]]];
    by repeat split.
Qed.

(** [fetchArtworks] issues exactly one request, for the page and the page
    size it was called with, when the page is missing from the render's
    cache, and none when the page is cached; it writes to the console at
    most once, and not at all on a cache hit. *)
Theorem fetchArtworks_requests env page pageSize w :
  requests (snd (fetchArtworks remote env page pageSize w))
  = requests w
    ++ match pageCache env !! page with
       | Some _ => []
       | None => [(page, pageSize)]
       end
  /\ (length (console (snd (fetchArtworks remote env page pageSize w)))
      <= S (length (console w)))%nat
  /\ (is_Some (pageCache env !! page) ->
      console (snd (fetchArtworks remote env page pageSize w)) = console w).
Proof.
  destruct (fetchArtworks_outcomes env page pageSize w)
    as [(cached & Hlookup & ->)|[(e & Hlookup & ->)
        |[(mapped & e & Hlookup & ->)|(mapped & total & Hlookup & ->)]]];
    rewrite Hlookup; simpl; rewrite ?app_nil_r, ?length_app; simpl;
    (split; [done|]); (split; [lia|]); try done; by intros [? ?].
Qed.

End Fetcher.

Section Navigation.

Variable remote : list request -> request -> fetch_outcome.

Lemma onPage_run env event w :
  onPage remote env event w
  = fetchArtworks remote env (default 0 (ev_page event) + 1)
      (default 12 (ev_rows event))
      (mkWorld
         (setRows (default 12 (ev_rows event))
            (setFirst (default 0 (ev_first event)) (ui w)))
         (console w) (requests w)).
Proof. done. Qed.

(** The cache is keyed by the page number alone: a navigation to a page that
    is in the render's cache shows the cached rows and issues no request,
    whatever page size the event carries, while the paginator position and
    the page size are taken from the event. *)
Theorem onPage_cached env event w cached :
  pageCache env !! (default 0 (ev_page event) + 1) = Some cached ->
  exists w',
    onPage remote env event w = (Ok tt, w')
    /\ artworks (ui w') = cached
    /\ rows (ui w') = default 12 (ev_rows event)
    /\ first (ui w') = default 0 (ev_first event)
    /\ loading (ui w') = false
    /\ pageCache (ui w') = pageCache (ui w)
    /\ requests w' = requests w
    /\ console w' = console w.
Proof.
  intros Hhit. eexists. split.
  - rewrite onPage_run. by apply fetchArtworks_hit.
  - done.
Qed.

(** For an event of the paginator, whose first row is the page index times
    the page size, the navigation asks for page index + 1 at that page size
    when the page is not cached, and the current page that the bulk selector
    computes from the new paginator position is that same page. *)
Theorem onPage_current_page env w pageIndex pageSize :
  1 <= pageSize ->
  first (ui (snd (onPage remote env
                    (mkPageEvent (Some (pageIndex * pageSize)) (Some pageSize)
                       (Some pageIndex)) w)))
  / rows (ui (snd (onPage remote env
                     (mkPageEvent (Some (pageIndex * pageSize)) (Some pageSize)
                        (Some pageIndex)) w)))
  + 1
  = pageIndex + 1
  /\ requests (snd (onPage remote env
                      (mkPageEvent (Some (pageIndex * pageSize)) (Some pageSize)
                         (Some pageIndex)) w))
     = requests w
       ++ match pageCache env !! (pageIndex + 1) with
          | Some _ => []
          | None => [(pageIndex + 1, pageSize)]
          end.
Proof.
  intros Hsize. rewrite onPage_run. simpl.
  destruct (fetchArtworks_outcomes remote env (pageIndex + 1) pageSize
              (mkWorld
                 (setRows pageSize (setFirst (pageIndex * pageSize) (ui w)))
                 (console w) (requests w)))
    as [(cached & Hlookup & ->)|[(e & Hlookup & ->)
        |[(mapped & e & Hlookup & ->)|(mapped & total & Hlookup & ->)]]];
    rewrite Hlookup; simpl; rewrite ?app_nil_r;
    (split; [|done]); rewrite Z.div_mul by lia; done.
Qed.

(** A manual selection survives navigation: after a selection change, a
    navigation to any page, cached or not, fetched or failed, leaves the
    selection as the change set it (empty when the change carried none). *)
Theorem selection_survives_navigation env value event w :
  selectedArtworks
    (ui (snd (onPage remote env event (snd (onSelectionChange value w)))))
  = default [] value.
Proof.
  rewrite onPage_run.
  destruct (fetchArtworks_outcomes remote env (default 0 (ev_page event) + 1)
              (default 12 (ev_rows event))
              (mkWorld
                 (setRows (default 12 (ev_rows event))
                    (setFirst (default 0 (ev_first event))
                       (ui (snd (onSelectionChange value w)))))
                 (console (snd (onSelectionChange value w)))
                 (requests (snd (onSelectionChange value w)))))
    as [(cached & _ & ->)|[(e & _ & ->)
        |[(mapped & e & _ & ->)|(mapped & total & _ & ->)]]];
    done.
Qed.

(** On mount over a fully available dataset the grid shows the first twelve
    records of the dataset in order, the loading flag is cleared, the total
    record count is the size of the dataset, page 1 is cached and exactly
    one request, for page 1 with limit 12, has been issued. *)
Theorem first_load_shows_first_page ds :
  serves remote ds ->
  artworks (ui (first_load remote)) = normalize <$> take 12 ds
  /\ loading (ui (first_load remote)) = false
  /\ totalRecords (ui (first_load remote)) = VNum (Z.of_nat (length ds))
  /\ pageCache (ui (first_load remote)) = {[1 := normalize <$> take 12 ds]}
  /\ requests (first_load remote) = [(1, 12)]
  /\ console (first_load remote) = [].
Proof.
  intros Hserves.
  destruct (Hserves [] 1 12 ltac:(done) ltac:(done))
    as (data & pagination & Hjson & Hdata & Hpagination & Htotal).
  assert (mappedData data = Ok (normalize <$> take 12 ds)) as Hmapped.
  { unfold mappedData. rewrite Hdata. simpl. apply mapItems_objects. }
  unfold first_load.
  rewrite (fetchArtworks_miss_mapped remote initial_state 1 12
             (world_of initial_state) data (normalize <$> take 12 ds));
    [|done|done|done].
  simpl. rewrite Hpagination. simpl. rewrite Htotal. simpl.
  by repeat split.
Qed.

End Navigation.

Lemma onPage_cached_witness :
  exists w',
    onPage (serve (catalogue 30)) (ui (first_load (serve (catalogue 30))))
      (mkPageEvent (Some 0) (Some 24) (Some 0))
      (first_load (serve (catalogue 30)))
    = (Ok tt, w')
    /\ length (artworks (ui w')) = 12%nat
    /\ rows (ui w') = 24
    /\ requests w' = [(1, 12)].
Proof.
  assert (pageCache (ui (first_load (serve (catalogue 30))))
            !! (default 0 (ev_page (mkPageEvent (Some 0) (Some 24) (Some 0))) + 1)
          = Some (normalize <$> page_slice (catalogue 30) 1 12)) as Hhit
    by (vm_compute; reflexivity).
  destruct (onPage_cached (serve (catalogue 30))
              (ui (first_load (serve (catalogue 30))))
              (mkPageEvent (Some 0) (Some 24) (Some 0))
              (first_load (serve (catalogue 30)))
              (normalize <$> page_slice (catalogue 30) 1 12) Hhit)
    as (w' & Hrun & Hshown & Hrows & _ & _ & _ & Hrequests & _).
  exists w'. split; [exact Hrun|]. rewrite Hshown, Hrows, Hrequests.
  by vm_compute.
Defined.

Lemma onPage_current_page_witness :
  first (ui (snd (onPage (serve (catalogue 30))
                    (ui (first_load (serve (catalogue 30))))
                    (mkPageEvent (Some (2 * 12)) (Some 12) (Some 2))
                    (first_load (serve (catalogue 30))))))
  / rows (ui (snd (onPage (serve (catalogue 30))
                     (ui (first_load (serve (catalogue 30))))
                     (mkPageEvent (Some (2 * 12)) (Some 12) (Some 2))
                     (first_load (serve (catalogue 30))))))
  + 1
  = 2 + 1.
Proof.
  apply (proj1 (onPage_current_page (serve (catalogue 30))
                  (ui (first_load (serve (catalogue 30))))
                  (first_load (serve (catalogue 30))) 2 12 ltac:(done))).
Defined.

Lemma first_load_shows_first_page_witness :
  artworks (ui (first_load (serve (catalogue 30))))
  = normalize <$> take 12 (catalogue 30)
  /\ totalRecords (ui (first_load (serve (catalogue 30)))) = VNum 30.
Proof.
  destruct (first_load_shows_first_page (serve (catalogue 30)) (catalogue 30)
              (serve_serves (catalogue 30)))
    as (Hshown & _ & Htotal & _).
  split; [exact Hshown|exact Htotal].
Defined.

(** * The mapping of the records *)

Lemma mapItem_defined item :
  nullish item = false -> exists a, mapItem item = Ok a.
Proof. destruct item; simpl; intros Hitem; try done; by eexists. Qed.

Lemma mapItem_nullish item :
  nullish item = true -> mapItem item = Throw TypeError.
Proof. by destruct item. Qed.

Lemma mapItems_cons item rest :
  mapItems (item :: rest)
  = result_bind (mapItem item) (fun a =>
    result_bind (mapItems rest) (fun l => Ok (a :: l))).
Proof. done. Qed.

Lemma mapItems_defined items :
  forallb (fun item => negb (nullish item)) items = true ->
  exists mapped,
    mapItems items = Ok mapped
    /\ length mapped = length items
    /\ forall (i : nat) props,
         items !! i = Some (VObj props) -> mapped !! i = Some (normalize props).
Proof.
  induction items as [|item rest IH]; intros Hall.
  - exists []. by repeat split.
  - simpl in Hall. apply andb_true_iff in Hall as [Hitem Hrest].
    apply negb_true_iff in Hitem.
    destruct (IH Hrest) as (mapped & Hmapped & Hlength & Hlookup).
    destruct (mapItem_defined item Hitem) as [a Ha].
    exists (a :: mapped). rewrite mapItems_cons, Ha, Hmapped. simpl.
    split; [done|]. split; [by rewrite Hlength|].
    intros [|i] props Hi; simpl in Hi.
    + inversion Hi; subst item. by inversion Ha.
    + by apply Hlookup.
Qed.

Lemma mapItems_nullish items :
  forallb (fun item => negb (nullish item)) items = false ->
  mapItems items = Throw TypeError.
Proof.
  induction items as [|item rest IH]; intros Hsome; [done|].
  simpl in Hsome. rewrite mapItems_cons.
  destruct (nullish item) eqn:Hitem.
  - by rewrite mapItem_nullish.
  - destruct (mapItem_defined item Hitem) as [a ->]. simpl in *.
    by rewrite IH.
Qed.

(** The mapping of a response succeeds exactly when [data.data] is an array
    none of whose items is [null] or [undefined].  It then keeps the number
    and the order of the items, an item object being mapped to its seven
    fields, each absent field to [undefined] and each null field to [null];
    otherwise it throws a [TypeError]. *)
Theorem mappedData_items :
  (forall data items,
      get_prop data "data" = Ok (VArr items) ->
      forallb (fun item => negb (nullish item)) items = true ->
      exists mapped,
        mappedData data = Ok mapped
        /\ length mapped = length items
        /\ forall (i : nat) props,
             items !! i = Some (VObj props) ->
             mapped !! i = Some (normalize props))
  /\ (forall data items,
        get_prop data "data" = Ok (VArr items) ->
        forallb (fun item => negb (nullish item)) items = false ->
        mappedData data = Throw TypeError)
  /\ (forall data,
        (forall items, get_prop data "data" <> Ok (VArr items)) ->
        mappedData data = Throw TypeError)
  /\ (forall props,
        own_prop props "inscriptions" = VUndefined ->
        own_prop props "date_start" = VNull ->
        Artworks.inscriptions (normalize props) = VUndefined
        /\ Artworks.date_start (normalize props) = VNull).
Proof.
  split; [|split; [|split]].
  - intros data items Hdata Hall. unfold mappedData. rewrite Hdata. simpl.
    by apply mapItems_defined.
  - intros data items Hdata Hsome. unfold mappedData. rewrite Hdata. simpl.
    by apply mapItems_nullish.
  - intros data Hnot. unfold mappedData.
    destruct (get_prop data "data") as [d|e] eqn:Hdata; simpl.
    + destruct d; try done. by destruct (Hnot items).
    + destruct data; simpl in Hdata; by inversion Hdata.
  - intros props Hinscriptions Hstart. simpl. by rewrite Hinscriptions, Hstart.
Qed.

Lemma mappedData_items_witness :
  (exists mapped,
     mappedData
       (VObj [("data", VArr [VObj [("id", VNum 7); ("date_start", VNull)];
                             VNum 3])])
     = Ok mapped
     /\ length mapped = 2%nat)
  /\ mappedData (VObj [("data", VArr [VObj [("id", VNum 7)]; VNull])])
     = Throw TypeError
  /\ mappedData (VObj [("error", VStr "Not found")]) = Throw TypeError.
Proof.
  split; [|split].
  - destruct (proj1 mappedData_items
                (VObj [("data", VArr [VObj [("id", VNum 7); ("date_start", VNull)];
                                      VNum 3])])
                [VObj [("id", VNum 7); ("date_start", VNull)]; VNum 3]
                eq_refl eq_refl)
      as (mapped & Hmapped & Hlength & _).
    exists mapped. split; [exact Hmapped|exact Hlength].
  - apply (proj1 (proj2 mappedData_items)
             (VObj [("data", VArr [VObj [("id", VNum 7)]; VNull])])
             [VObj [("id", VNum 7)]; VNull] eq_refl eq_refl).
  - apply (proj1 (proj2 (proj2 mappedData_items))
             (VObj [("error", VStr "Not found")])).
    intros items. discriminate.
Defined.

(** * Further properties of the prefetch *)

Section PrefetchMore.

Variable remote : list request -> request -> fetch_outcome.

Lemma uncached_requests_filter env pageNumbers :
  uncached_requests env pageNumbers
  = (fun pageNum => (pageNum, rows env))
    <$> filter (fun pageNum => pageCache env !! pageNum = None) pageNumbers.
Proof.
  induction pageNumbers as [|p rest IH]; simpl; [done|].
  destruct (pageCache env !! p) as [cached|] eqn:Hp.
  - rewrite filter_cons_False by congruence. done.
  - rewrite filter_cons_True by done. rewrite fmap_cons. by rewrite IH.
Qed.

Lemma cached_pages_keys env pageNumbers pageNum recs : forall newCache,
  cached_pages env pageNumbers newCache !! pageNum = Some recs ->
  pageNum ∈ pageNumbers \/ newCache !! pageNum = Some recs.
Proof.
  induction pageNumbers as [|p rest IH]; intros newCache Hlookup;
    simpl in Hlookup; [by right|].
  destruct (pageCache env !! p) as [c|] eqn:Hp.
  - apply IH in Hlookup as [Hin|Hnew]; [left; by right|].
    destruct (decide (p = pageNum)) as [->|Hne]; [left; by left|].
    rewrite lookup_insert_ne in Hnew by done. by right.
  - apply IH in Hlookup as [Hin|Hnew]; [left; by right|by right].
Qed.

Lemma settle_keys arrivals newCache pageNum recs :
  settle arrivals newCache !! pageNum = Some recs ->
  pageNum ∈ arrivals.*1 \/ newCache !! pageNum = Some recs.
Proof.
  intros Hlookup.
  destruct (decide (pageNum ∈ arrivals.*1)) as [Hin|Hnotin]; [by left|].
  right. by rewrite settle_absent in Hlookup.
Qed.

Lemma prefetched_keys arrival_order env pageNumbers log pageNum :
  (forall l, arrival_order l ≡ₚ l) ->
  is_Some (prefetched remote arrival_order env pageNumbers log !! pageNum) ->
  pageNum ∈ pageNumbers.
Proof.
  intros Hperm [recs Hlookup]. unfold prefetched in Hlookup.
  apply settle_keys in Hlookup as [Hin|Hcached].
  - rewrite (Hperm _) in Hin. by apply pending_fetches_keys in Hin as [? _].
  - apply cached_pages_keys in Hcached as [Hin|Hempty]; [done|].
    by rewrite lookup_empty in Hempty.
Qed.

Lemma prefetched_cached arrival_order env pageNumbers log pageNum cached :
  (forall l, arrival_order l ≡ₚ l) ->
  pageNum ∈ pageNumbers ->
  pageCache env !! pageNum = Some cached ->
  prefetched remote arrival_order env pageNumbers log !! pageNum = Some cached.
Proof.
  intros Hperm Hin Hcached. unfold prefetched.
  rewrite settle_absent; [by apply cached_pages_hit|].
  rewrite (Hperm _), pending_fetches_keys. intros [_ Hmiss]. congruence.
Qed.

Lemma pending_fetches_all_cached env pageNumbers : forall log,
  (forall pageNum, pageNum ∈ pageNumbers -> is_Some (pageCache env !! pageNum)) ->
  pending_fetches remote env pageNumbers log = []
  /\ uncached_requests env pageNumbers = [].
Proof.
  induction pageNumbers as [|p rest IH]; intros log Hall; simpl; [done|].
  destruct (Hall p ltac:(by left)) as [cached ->].
  apply IH. intros pageNum Hin. apply Hall. by right.
Qed.

Lemma setPageCache_same f s :
  f (pageCache s) = pageCache s -> setPageCache f s = s.
Proof. intros Hsame. destruct s. unfold setPageCache. simpl in *. by rewrite Hsame. Qed.

(** A prefetch all of whose pages are in the cache changes nothing. *)
Lemma prefetchPages_noop arrival_order env pageNumbers w :
  (forall l, arrival_order l ≡ₚ l) ->
  (forall pageNum, pageNum ∈ pageNumbers -> is_Some (pageCache env !! pageNum)) ->
  pageCache env = pageCache (ui w) ->
  prefetchPages remote arrival_order env pageNumbers w
  = (Ok (cached_pages env pageNumbers ∅), w).
Proof.
  intros Hperm Hall Hfresh. rewrite prefetchPages_run. unfold prefetched.
  destruct (pending_fetches_all_cached env pageNumbers (requests w) Hall)
    as [-> ->].
  assert (arrival_order [] = []) as -> by (by apply Permutation_nil_r).
  simpl. f_equal. rewrite !app_nil_r.
  rewrite setPageCache_same; [by destruct w|].
  apply map_subseteq_union. apply map_subseteq_spec.
  intros pageNum recs Hlookup.
  apply cached_pages_from_cache in Hlookup as [Hcache|Hempty].
  - by rewrite <- Hfresh.
  - by rewrite lookup_empty in Hempty.
Qed.

(** The prefetch issues one request per requested page that is missing from
    the render's cache, in the order of the request list and at the current
    page size, and none for a cached page.  The map it returns holds
    requested pages only, a cached page with its cached records, and the
    rows on display, the selection, the loading flag, the total record
    count and the paginator position are as before. *)
Theorem prefetchPages_requests arrival_order env pageNumbers w :
  (forall l, arrival_order l ≡ₚ l) ->
  exists newCache w',
    prefetchPages remote arrival_order env pageNumbers w = (Ok newCache, w')
    /\ requests w'
       = requests w
         ++ ((fun pageNum => (pageNum, rows env))
             <$> filter (fun pageNum => pageCache env !! pageNum = None)
                   pageNumbers)
    /\ (forall pageNum, is_Some (newCache !! pageNum) -> pageNum ∈ pageNumbers)
    /\ (forall pageNum cached,
          pageNum ∈ pageNumbers -> pageCache env !! pageNum = Some cached ->
          newCache !! pageNum = Some cached)
    /\ artworks (ui w') = artworks (ui w)
    /\ selectedArtworks (ui w') = selectedArtworks (ui w)
    /\ loading (ui w') = loading (ui w)
    /\ totalRecords (ui w') = totalRecords (ui w)
    /\ first (ui w') = first (ui w)
    /\ rows (ui w') = rows (ui w).
Proof.
  intros Hperm. eexists _, _. split; [apply prefetchPages_run|].
  simpl. split; [by rewrite uncached_requests_filter|].
  split; [intros pageNum; by apply prefetched_keys|].
  split; [intros pageNum cached; by apply prefetched_cached|].
  done.
Qed.

(** When every requested page is in the cache of the current render the
    prefetch touches neither the network nor the console nor the state, and
    returns the cached records of the requested pages. *)
Theorem prefetchPages_all_cached arrival_order env pageNumbers w :
  (forall l, arrival_order l ≡ₚ l) ->
  (forall pageNum, pageNum ∈ pageNumbers -> is_Some (pageCache env !! pageNum)) ->
  pageCache env = pageCache (ui w) ->
  exists newCache,
    prefetchPages remote arrival_order env pageNumbers w = (Ok newCache, w)
    /\ (forall pageNum,
          pageNum ∈ pageNumbers -> newCache !! pageNum = pageCache env !! pageNum)
    /\ (forall pageNum, is_Some (newCache !! pageNum) -> pageNum ∈ pageNumbers).
Proof.
  intros Hperm Hall Hfresh. eexists. split; [by apply prefetchPages_noop|].
  split.
  - intros pageNum Hin. destruct (Hall pageNum Hin) as [cached Hcached].
    rewrite Hcached. by apply cached_pages_hit.
  - intros pageNum [recs Hlookup].
    apply cached_pages_keys in Hlookup as [Hin|Hempty]; [done|].
    by rewrite lookup_empty in Hempty.
Qed.

End PrefetchMore.

Lemma prefetchPages_requests_witness :
  exists newCache w',
    prefetchPages (serve (catalogue 40)) reverse
      (ui (first_load (serve (catalogue 40)))) [1; 2; 3]
      (first_load (serve (catalogue 40)))
    = (Ok newCache, w')
    /\ requests w' = [(1, 12); (2, 12); (3, 12)].
Proof.
  destruct (prefetchPages_requests (serve (catalogue 40)) reverse
              (ui (first_load (serve (catalogue 40)))) [1; 2; 3]
              (first_load (serve (catalogue 40))) reverse_Permutation)
    as (newCache & w' & Hrun & Hrequests & _).
  exists newCache, w'. split; [exact Hrun|]. rewrite Hrequests.
  vm_compute. reflexivity.
Defined.

Lemma prefetchPages_all_cached_witness :
  exists newCache,
    prefetchPages unreachable reverse
      (ui (first_load (serve (catalogue 40)))) [1]
      (first_load (serve (catalogue 40)))
    = (Ok newCache, first_load (serve (catalogue 40))).
Proof.
  assert (forall pageNum : Z,
            pageNum ∈ [1] ->
            is_Some (pageCache (ui (first_load (serve (catalogue 40))))
                       !! pageNum)) as Hall.
  { intros pageNum Hin. apply list_elem_of_singleton in Hin as ->.
    vm_compute. eexists. reflexivity. }
  destruct (prefetchPages_all_cached unreachable reverse
              (ui (first_load (serve (catalogue 40)))) [1]
              (first_load (serve (catalogue 40)))
              reverse_Permutation Hall eq_refl)
    as (newCache & Hrun & _).
  exists newCache. exact Hrun.
Defined.

(** * Further properties of the bulk selector *)

Section BulkMore.

Variable remote : list request -> request -> fetch_outcome.

(** A bulk selection with a positive count always returns normally, with
    the busy flag cleared.  When the planner returns a plan, as it does for a
    page size of at least one whenever an array can hold the plan, the
    selection never has more records than were asked for, whatever the
    remote returns (pages longer than the page size included) and in
    whatever order the responses arrive.  When the planner throws, as it
    does for a page size of zero or less, the exception is logged and the
    selection, the cache and the request log are left as they were. *)
Theorem handleAutoSelect_bounded maxLength arrival_order env w count :
  selectCount env = Some count -> 0 < count ->
  fst (handleAutoSelect remote maxLength arrival_order env w) = Ok tt
  /\ isSelecting (ui (snd (handleAutoSelect remote maxLength arrival_order env w)))
     = false
  /\ (forall plan,
        calculatePagesNeeded maxLength env count (first env / rows env + 1)
        = Ok plan ->
        Z.of_nat
          (length
             (selectedArtworks
                (ui (snd (handleAutoSelect remote maxLength arrival_order env w)))))
        <= count)
  /\ (1 <= rows env -> (Z.to_nat count <= maxLength)%nat ->
      Z.of_nat
        (length
           (selectedArtworks
              (ui (snd (handleAutoSelect remote maxLength arrival_order env w)))))
      <= count)
  /\ (forall e,
        calculatePagesNeeded maxLength env count (first env / rows env + 1)
        = Throw e ->
        selectedArtworks
          (ui (snd (handleAutoSelect remote maxLength arrival_order env w)))
        = selectedArtworks (ui w)
        /\ pageCache
             (ui (snd (handleAutoSelect remote maxLength arrival_order env w)))
           = pageCache (ui w)
        /\ requests (snd (handleAutoSelect remote maxLength arrival_order env w))
           = requests w
        /\ console (snd (handleAutoSelect remote maxLength arrival_order env w))
           = console w ++ [ErrorInBulkSelection e])
  /\ (rows env <= 0 ->
      selectedArtworks
        (ui (snd (handleAutoSelect remote maxLength arrival_order env w)))
      = selectedArtworks (ui w)
      /\ console (snd (handleAutoSelect remote maxLength arrival_order env w))
         = console w ++ [ErrorInBulkSelection RangeError]).
Proof.
  intros Hcount Hpos.
  assert (forall plan,
            calculatePagesNeeded maxLength env count (first env / rows env + 1)
            = Ok plan ->
            Z.of_nat
              (length
                 (selectedArtworks
                    (ui (snd (handleAutoSelect remote maxLength arrival_order
                                env w)))))
            <= count) as Hbound.
  { intros plan Hplan.
    rewrite (handleAutoSelect_run remote maxLength _ env w count plan) by done.
    simpl. rewrite select_loop_take by done. simpl. rewrite length_take. lia. }
  assert (forall e,
            calculatePagesNeeded maxLength env count (first env / rows env + 1)
            = Throw e ->
            handleAutoSelect remote maxLength arrival_order env w
            = (Ok tt,
               mkWorld (setIsSelecting false (setIsSelecting true (ui w)))
                 (console w ++ [ErrorInBulkSelection e]) (requests w)))
    as Hthrown.
  { intros e Hplan. by apply handleAutoSelect_thrown with (count := count). }
  split; [|split; [|split; [exact Hbound|split; [|split]]]].
  - destruct (handleAutoSelect_outcomes remote maxLength arrival_order env w)
      as [(_ & ->)|[(c & plan & _ & _ & _ & ->)|(c & e & _ & _ & _ & ->)]];
      done.
  - destruct (handleAutoSelect_outcomes remote maxLength arrival_order env w)
      as [(Hguard & _)|[(c & plan & _ & _ & _ & ->)|(c & e & _ & _ & _ & ->)]];
      [|done|done].
    rewrite Hcount in Hguard. simpl in Hguard. lia.
  - intros Hrows Hroom.
    apply (Hbound (seqZ (first env / rows env + 1) (ceil_div count (rows env)))).
    by apply calculatePagesNeeded_run.
  - intros e Hplan. by rewrite (Hthrown e Hplan).
  - intros Hrows.
    rewrite (Hthrown RangeError); [done|].
    by apply while_loop_overflows.
Qed.

(** A bulk selection, rejected or not, finished or cut short, leaves the
    rows on display, the paginator position, the page size, the total record
    count, the loading flag, the selection mode and the entered count as
    they were, and only adds to the request log and to the console. *)
Theorem handleAutoSelect_frame maxLength arrival_order env w :
  artworks (ui (snd (handleAutoSelect remote maxLength arrival_order env w)))
  = artworks (ui w)
  /\ first (ui (snd (handleAutoSelect remote maxLength arrival_order env w)))
     = first (ui w)
  /\ rows (ui (snd (handleAutoSelect remote maxLength arrival_order env w)))
     = rows (ui w)
  /\ totalRecords
       (ui (snd (handleAutoSelect remote maxLength arrival_order env w)))
     = totalRecords (ui w)
  /\ loading (ui (snd (handleAutoSelect remote maxLength arrival_order env w)))
     = loading (ui w)
  /\ rowClick (ui (snd (handleAutoSelect remote maxLength arrival_order env w)))
     = rowClick (ui w)
  /\ selectCount
       (ui (snd (handleAutoSelect remote maxLength arrival_order env w)))
     = selectCount (ui w)
  /\ requests w
     `prefix_of` requests
                   (snd (handleAutoSelect remote maxLength arrival_order env w))
  /\ console w
     `prefix_of` console
                   (snd (handleAutoSelect remote maxLength arrival_order env w)).
Proof.
  destruct (handleAutoSelect_outcomes remote maxLength arrival_order env w)
    as [(_ & ->)|[(count & plan & _ & _ & _ & ->)|(count & e & _ & _ & _ & ->)]];
    simpl; repeat split; try done; by eexists.
Qed.

Lemma prefetched_all arrival_order env pageNumbers log :
  (forall l, arrival_order l ≡ₚ l) ->
  NoDup pageNumbers ->
  (forall pageNum response,
      (pageNum, response) ∈ pending_fetches remote env pageNumbers log ->
      exists mapped, decode response = Ok mapped) ->
  forall pageNum,
    pageNum ∈ pageNumbers ->
    is_Some (prefetched remote arrival_order env pageNumbers log !! pageNum).
Proof.
  intros Hperm Hnodup Hok pageNum Hin.
  destruct (pageCache env !! pageNum) as [cached|] eqn:Hcache.
  - exists cached. by apply prefetched_cached.
  - assert (pageNum ∈ (pending_fetches remote env pageNumbers log).*1) as Hkey
      by (by apply pending_fetches_keys).
    apply list_elem_of_fmap in Hkey as ([p response] & -> & Hpending).
    simpl in *.
    destruct (Hok p response Hpending) as [mapped Hdecode].
    exists mapped. unfold prefetched. apply (settle_stored _ _ response).
    + rewrite (Hperm _). by apply pending_fetches_NoDup.
    + by rewrite (Hperm _).
    + done.
Qed.

Lemma page_data_subseteq (fetchedData cache : gmap Z (list Artworks.t)) pageNum :
  fetchedData ⊆ cache ->
  page_data fetchedData cache pageNum = default [] (cache !! pageNum).
Proof.
  intros Hsub. rewrite page_data_empty_union.
  by rewrite (map_subseteq_union _ _ Hsub).
Qed.

Lemma cached_pages_subseteq env pageNumbers :
  cached_pages env pageNumbers ∅ ⊆ pageCache env.
Proof.
  apply map_subseteq_spec. intros pageNum recs Hlookup.
  apply cached_pages_from_cache in Hlookup as [Hcache|Hempty]; [done|].
  by rewrite lookup_empty in Hempty.
Qed.

(** Repeating a bulk selection all of whose fetches succeeded, from the
    render that follows it, changes nothing: no request is issued, nothing
    is written to the console, and the selection, the cache and the rest of
    the state stay as the first run left them. *)
Theorem handleAutoSelect_repeat maxLength arrival_order w count :
  selectCount (ui w) = Some count -> 0 < count -> 1 <= rows (ui w) ->
  (Z.to_nat count <= maxLength)%nat ->
  (forall l, arrival_order l ≡ₚ l) ->
  (forall pageNum response,
      (pageNum, response)
      ∈ pending_fetches remote (ui w)
          (seqZ (first (ui w) / rows (ui w) + 1)
             (ceil_div count (rows (ui w))))
          (requests w) ->
      exists mapped, decode response = Ok mapped) ->
  exists w1,
    handleAutoSelect remote maxLength arrival_order (ui w) w = (Ok tt, w1)
    /\ handleAutoSelect remote maxLength arrival_order (ui w1) w1 = (Ok tt, w1).
Proof.
  intros Hcount Hpos Hrows Hfuel Hperm Hok.
  set (plan := seqZ (first (ui w) / rows (ui w) + 1)
                 (ceil_div count (rows (ui w)))) in *.
  pose proof (handleAutoSelect_run remote maxLength arrival_order (ui w) w count plan
                Hcount Hpos (calculatePagesNeeded_run _ _ _ _ Hrows Hfuel))
    as Hfirst.
  simpl in Hfirst.
  set (fetched := prefetched remote arrival_order (ui w) plan (requests w)) in *.
  eexists. split; [exact Hfirst|].
  match goal with
  | |- handleAutoSelect _ _ _ (ui ?w1) _ = _ =>
      remember w1 as next eqn:Hnext
  end.
  assert (pageCache (ui next) = fetched ∪ pageCache (ui w)) as Hcache
    by (by rewrite Hnext).
  assert (selectCount (ui next) = Some count) as Hcount'
    by (by rewrite Hnext).
  assert (rows (ui next) = rows (ui w)) as Hrows' by (by rewrite Hnext).
  assert (first (ui next) = first (ui w)) as Hfirst' by (by rewrite Hnext).
  assert (forall pageNum,
            pageNum ∈ plan -> is_Some (pageCache (ui next) !! pageNum))
    as Hcached.
  { intros pageNum Hin. rewrite Hcache.
    destruct (prefetched_all arrival_order (ui w) plan (requests w) Hperm
                (NoDup_seqZ _ _) Hok pageNum Hin) as [recs Hrecs].
    exists recs. apply lookup_union_Some_raw. by left. }
  rewrite (handleAutoSelect_run remote maxLength arrival_order (ui next) next
             count plan); [|done|done|].
  - unfold prefetched.
    destruct (pending_fetches_all_cached remote (ui next) plan (requests next)
                Hcached) as [-> ->].
    assert (arrival_order [] = []) as -> by (by apply Permutation_nil_r).
    simpl settle. simpl settle_errors. rewrite !app_nil_r.
    pose proof (cached_pages_subseteq (ui next) plan) as Hsub.
    rewrite (setPageCache_same
               (fun prev => cached_pages (ui next) plan ∅ ∪ prev)
               (setIsSelecting true (ui next)))
      by (apply (map_subseteq_union _ _ Hsub)).
    assert (select_loop (cached_pages (ui next) plan ∅) (pageCache (ui next))
              plan count []
            = select_loop fetched (pageCache (ui w)) plan count []) as ->.
    { rewrite !select_loop_take by done. do 3 f_equal.
      apply list_fmap_ext. intros i pageNum _.
      rewrite (page_data_subseteq _ _ _ Hsub).
      by rewrite page_data_empty_union, Hcache. }
    do 2 f_equal. rewrite Hnext. simpl.
    by destruct (ui w).
  - rewrite Hfirst', Hrows'.
    rewrite (calculatePagesNeeded_run maxLength (ui next) count) by lia.
    by rewrite Hrows'.
Qed.

End BulkMore.

Lemma handleAutoSelect_bounded_witness :
  Z.of_nat
    (length
       (selectedArtworks
          (ui (snd (handleAutoSelect (serve_except [2] (catalogue 36)) 25
                      reverse (bulk_request 25 0)
                      (world_of (bulk_request 25 0)))))))
  <= 25
  /\ selectedArtworks
       (ui (snd (handleAutoSelect (serve (catalogue 30)) 1000 reverse
                   (setRows 0 (bulk_request 5 0))
                   (with_selection (normalize <$> catalogue 9)
                      (world_of (setRows 0 (bulk_request 5 0)))))))
     = normalize <$> catalogue 9.
Proof.
  split.
  - apply (proj1 (proj2 (proj2 (proj2
             (handleAutoSelect_bounded (serve_except [2] (catalogue 36)) 25
                reverse (bulk_request 25 0) (world_of (bulk_request 25 0)) 25
                eq_refl ltac:(done)))))
             ltac:(done) ltac:(vm_compute; lia)).
  - apply (proj2 (proj2 (proj2 (proj2 (proj2
             (handleAutoSelect_bounded (serve (catalogue 30)) 1000 reverse
                (setRows 0 (bulk_request 5 0))
                (with_selection (normalize <$> catalogue 9)
                   (world_of (setRows 0 (bulk_request 5 0)))) 5
                eq_refl ltac:(done))))))
             ltac:(done)).
Defined.

Lemma handleAutoSelect_repeat_witness :
  exists w1,
    handleAutoSelect (serve (catalogue 30)) 20 reverse (bulk_request 20 0)
      (world_of (bulk_request 20 0))
    = (Ok tt, w1)
    /\ handleAutoSelect (serve (catalogue 30)) 20 reverse (ui w1) w1
       = (Ok tt, w1).
Proof.
  apply (handleAutoSelect_repeat (serve (catalogue 30)) 20 reverse
           (world_of (bulk_request 20 0)) 20 eq_refl ltac:(done) ltac:(done)
           ltac:(vm_compute; lia) reverse_Permutation).
  intros pageNum response Hin.
  assert (1 <= pageNum) as Hpage.
  { assert (pageNum
            ∈ (pending_fetches (serve (catalogue 30))
                 (ui (world_of (bulk_request 20 0)))
                 (seqZ (first (ui (world_of (bulk_request 20 0)))
                        / rows (ui (world_of (bulk_request 20 0))) + 1)
                    (ceil_div 20 (rows (ui (world_of (bulk_request 20 0))))))
                 (requests (world_of (bulk_request 20 0)))).*1) as Hkey
      by (apply list_elem_of_fmap; by exists (pageNum, response)).
    apply pending_fetches_keys in Hkey as [Hplan _].
    apply elem_of_seqZ in Hplan. destruct Hplan as [Hlow _].
    change (1 <= pageNum) in Hlow. exact Hlow. }
  apply pending_fetches_outcome in Hin as [log ->].
  eexists. apply (decode_serves (serve (catalogue 30)) (catalogue 30));
    [apply serve_serves|done|done].
Defined.

(** * What the render shows *)

Lemma Math_ceil_ceil_div a b : 1 <= b -> Math_ceil a b = ceil_div a b.
Proof.
  intros Hb. unfold Math_ceil, ceil_div.
  pose proof (Z.div_mod (a + b - 1) b ltac:(lia)) as H1.
  pose proof (Z.mod_pos_bound (a + b - 1) b ltac:(lia)) as H2.
  pose proof (Z.div_mod (- a) b ltac:(lia)) as H3.
  pose proof (Z.mod_pos_bound (- a) b ltac:(lia)) as H4.
  nia.
Qed.

(** The page count announced under the count input is the number of pages
    the planner plans: whenever "Will select across N pages" is shown, the
    plan of the bulk selection has exactly N pages, at least two; whenever
    it is not shown for a positive count, the plan is the current page
    alone. *)
Theorem pages_preview_matches_plan maxLength env count currentPage :
  selectCount env = Some count -> 0 < count -> 1 <= rows env ->
  (Z.to_nat count <= maxLength)%nat ->
  exists plan,
    calculatePagesNeeded maxLength env count currentPage = Ok plan
    /\ (forall n,
          pages_preview env = Some n ->
          Z.of_nat (length plan) = n /\ 2 <= n)
    /\ (pages_preview env = None -> plan = [currentPage]).
Proof.
  intros Hcount Hpos Hrows Hfuel.
  exists (seqZ currentPage (ceil_div count (rows env))).
  split; [by apply calculatePagesNeeded_run|].
  pose proof (ceil_div_spec count (rows env) Hrows) as Hspec.
  unfold pages_preview. rewrite Hcount.
  replace (count =? 0) with false by lia. simpl.
  destruct (rows env <? count) eqn:Hmany.
  - apply Z.ltb_lt in Hmany. split; [|done].
    intros n Hn. inversion Hn; subst n.
    rewrite Math_ceil_ceil_div by done.
    rewrite length_seqZ. split; [nia|nia].
  - apply Z.ltb_ge in Hmany. split; [done|]. intros _.
    assert (ceil_div count (rows env) = 1) as -> by nia.
    done.
Qed.

Lemma pages_preview_matches_plan_witness :
  exists plan,
    calculatePagesNeeded 25 (bulk_request 25 0) 25 1 = Ok plan
    /\ pages_preview (bulk_request 25 0) = Some 3
    /\ Z.of_nat (length plan) = 3.
Proof.
  destruct (pages_preview_matches_plan 25 (bulk_request 25 0) 25 1
              eq_refl ltac:(done) ltac:(done) ltac:(vm_compute; lia))
    as (plan & Hplan & Hshown & _).
  exists plan. split; [exact Hplan|]. split; [reflexivity|].
  apply (Hshown 3 eq_refl).
Defined.

Lemma first_line_split s :
  exists rest,
    s = String.append (first_line s) rest
    /\ (rest = EmptyString \/ exists tail, rest = String line_feed tail)
    /\ ~ In line_feed (String.list_ascii_of_string (first_line s)).
Proof.
  induction s as [|c s (rest & Hsplit & Hrest & Hclean)]; simpl.
  - exists EmptyString. split; [done|]. split; [by left|]. by intros [].
  - destruct (Ascii.eqb c line_feed) eqn:Hc.
    + apply Ascii.eqb_eq in Hc as ->. exists (String line_feed s). simpl.
      split; [done|]. split; [right; by exists s|]. by intros [].
    + apply Ascii.eqb_neq in Hc. exists rest. simpl.
      split.
      { change (String c s = String c (first_line s +:+ rest)). by f_equal. }
      split; [done|].
      intros [Heq|Hin]; [by apply Hc|by apply Hclean].
Qed.

(** The artist column shows the first line of the attribution: for a string
    it is the text before the first line feed, which holds no line feed
    itself; for an absent or null attribution it is "Unknown"; an
    attribution of any other kind makes the cell throw a [TypeError]. *)
Theorem artist_body_first_line :
  (forall row s,
      Artworks.artist_display row = VStr s ->
      exists cell rest,
        artist_body row = Ok cell
        /\ s = String.append cell rest
        /\ (rest = EmptyString \/ exists tail, rest = String line_feed tail)
        /\ ~ In line_feed (String.list_ascii_of_string cell))
  /\ (forall row,
        nullish (Artworks.artist_display row) = true ->
        artist_body row = Ok "Unknown")
  /\ (forall row,
        nullish (Artworks.artist_display row) = false ->
        (forall s, Artworks.artist_display row <> VStr s) ->
        artist_body row = Throw TypeError).
Proof.
  split; [|split].
  - intros row s Hrow. destruct (first_line_split s) as (rest & Hsplit).
    exists (first_line s), rest. split; [|done].
    unfold artist_body. by rewrite Hrow.
  - intros row Hrow. unfold artist_body.
    by destruct (Artworks.artist_display row).
  - intros row Hrow Hnot. unfold artist_body.
    destruct (Artworks.artist_display row); try done. by destruct (Hnot s).
Qed.

Lemma artist_body_first_line_witness :
  artist_body (normalize [("id", VNum 1)]) = Ok "Unknown"
  /\ artist_body (normalize [("artist_display", VNum 4)]) = Throw TypeError
  /\ exists cell rest,
       artist_body
         (normalize
            [("artist_display",
              VStr (String.append "Claude Monet"
                      (String line_feed "French, 1840-1926")))])
       = Ok cell
       /\ String.append "Claude Monet" (String line_feed "French, 1840-1926")
          = String.append cell rest.
Proof.
  split; [|split].
  - apply (proj1 (proj2 artist_body_first_line)). reflexivity.
  - apply (proj2 (proj2 artist_body_first_line)); [reflexivity|].
    intros s. discriminate.
  - destruct (proj1 artist_body_first_line
                (normalize
                   [("artist_display",
                     VStr (String.append "Claude Monet"
                             (String line_feed "French, 1840-1926")))])
                (String.append "Claude Monet"
                   (String line_feed "French, 1840-1926"))
                eq_refl)
      as (cell & rest & Hcell & Hsplit & _).
    exists cell, rest. split; [exact Hcell|exact Hsplit].
Defined.

(** * The rows on display and the selection across the handlers *)

Section Session.

Variable remote : list request -> request -> fetch_outcome.

Lemma fetchArtworks_shows_cached env page pageSize w :
  pageCache env = pageCache (ui w) ->
  shows_cached_page (ui w) ->
  shows_cached_page (ui (snd (fetchArtworks remote env page pageSize w))).
Proof.
  intros Hfresh Hshown.
  destruct (fetchArtworks_outcomes remote env page pageSize w)
    as [(cached & Hlookup & ->)|[(e & Hlookup & ->)
        |[(mapped & e & Hlookup & ->)|(mapped & total & Hlookup & ->)]]];
    simpl.
  - right. exists page. simpl. by rewrite <- Hfresh.
  - exact Hshown.
  - right. exists page. simpl. by rewrite lookup_insert_eq.
  - right. exists page. simpl. by rewrite lookup_insert_eq.
Qed.

(** The grid only ever shows a cached page: a fresh component shows no row,
    and when a handler runs from a render whose cache is the current one,
    the rows on display after [fetchArtworks], a navigation, a bulk
    selection or a selection change are the records of some page of the
    cache, or there are none. *)
Theorem shows_cached_page_invariant :
  shows_cached_page initial_state
  /\ (forall env page pageSize w,
        pageCache env = pageCache (ui w) -> shows_cached_page (ui w) ->
        shows_cached_page (ui (snd (fetchArtworks remote env page pageSize w))))
  /\ (forall env event w,
        pageCache env = pageCache (ui w) -> shows_cached_page (ui w) ->
        shows_cached_page (ui (snd (onPage remote env event w))))
  /\ (forall maxLength arrival_order env w,
        (forall l, arrival_order l ≡ₚ l) ->
        pageCache env = pageCache (ui w) -> shows_cached_page (ui w) ->
        shows_cached_page
          (ui (snd (handleAutoSelect remote maxLength arrival_order env w))))
  /\ (forall value w,
        shows_cached_page (ui w) ->
        shows_cached_page (ui (snd (onSelectionChange value w)))).
Proof.
  split; [by left|]. split; [exact fetchArtworks_shows_cached|].
  split; [|split].
  - intros env event w Hfresh Hshown. rewrite onPage_run.
    by apply fetchArtworks_shows_cached.
  - intros maxLength arrival_order env w Hperm Hfresh Hshown.
    destruct (handleAutoSelect_outcomes remote maxLength arrival_order env w)
      as [(_ & ->)|[(count & plan & _ & _ & _ & ->)|(count & e & _ & _ & _ & ->)]];
      [done| |done].
    destruct Hshown as [Hnone|(pageNum & Hpage)]; [by left|].
    right. exists pageNum. simpl.
    eapply lookup_weaken; [exact Hpage|].
    by apply prefetched_union_extends.
  - intros value w Hshown. exact Hshown.
Qed.

(** A bulk selection that runs its plan replaces the selection wholesale:
    with a positive count and a plan returned by the planner, its outcome
    (result, selection, cache, requests) is the same whatever was selected
    before; nothing of the previous selection is merged in.  When the
    planner throws instead, the previous selection stays. *)
Theorem handleAutoSelect_overwrites maxLength arrival_order env w count previous :
  selectCount env = Some count -> 0 < count ->
  (forall plan,
      calculatePagesNeeded maxLength env count (first env / rows env + 1)
      = Ok plan ->
      (fst (handleAutoSelect remote maxLength arrival_order env
              (with_selection previous w)),
       selectedArtworks
         (ui (snd (handleAutoSelect remote maxLength arrival_order env
                     (with_selection previous w)))),
       pageCache
         (ui (snd (handleAutoSelect remote maxLength arrival_order env
                     (with_selection previous w)))),
       requests
         (snd (handleAutoSelect remote maxLength arrival_order env
                 (with_selection previous w))))
      = (fst (handleAutoSelect remote maxLength arrival_order env w),
         selectedArtworks
           (ui (snd (handleAutoSelect remote maxLength arrival_order env w))),
         pageCache
           (ui (snd (handleAutoSelect remote maxLength arrival_order env w))),
         requests (snd (handleAutoSelect remote maxLength arrival_order env w))))
  /\ (forall e,
        calculatePagesNeeded maxLength env count (first env / rows env + 1)
        = Throw e ->
        selectedArtworks
          (ui (snd (handleAutoSelect remote maxLength arrival_order env
                      (with_selection previous w))))
        = previous).
Proof.
  intros Hcount Hpos. split.
  - intros plan Hplan.
    by rewrite !(handleAutoSelect_run remote maxLength _ env _ count plan)
      by done.
  - intros e Hplan.
    by rewrite (handleAutoSelect_thrown remote maxLength _ env _ count e)
      by done.
Qed.

End Session.

Lemma shows_cached_page_invariant_witness :
  shows_cached_page (ui (first_load (serve (catalogue 30))))
  /\ shows_cached_page (ui (second_page (serve (catalogue 30)))).
Proof.
  assert (shows_cached_page (ui (first_load (serve (catalogue 30))))) as Hfirst.
  { apply (proj1 (proj2 (shows_cached_page_invariant (serve (catalogue 30))))
             initial_state 1 12 (world_of initial_state) eq_refl).
    apply (proj1 (shows_cached_page_invariant (serve (catalogue 30)))). }
  split; [exact Hfirst|].
  apply (proj1 (proj2 (proj2 (shows_cached_page_invariant
                                (serve (catalogue 30)))))
           (ui (first_load (serve (catalogue 30))))
           (mkPageEvent (Some 12) (Some 12) (Some 1))
           (first_load (serve (catalogue 30))) eq_refl Hfirst).
Defined.

Lemma handleAutoSelect_overwrites_witness :
  selectedArtworks
    (ui (snd (handleAutoSelect (serve (catalogue 30)) 20 reverse
                (bulk_request 20 0)
                (with_selection (normalize <$> catalogue 3)
                   (world_of (bulk_request 20 0))))))
  = selectedArtworks
      (ui (snd (handleAutoSelect (serve (catalogue 30)) 20 reverse
                  (bulk_request 20 0) (world_of (bulk_request 20 0)))))
  /\ selectedArtworks
       (ui (snd (handleAutoSelect (serve (catalogue 30)) 20 reverse
                   (setRows 0 (bulk_request 20 0))
                   (with_selection (normalize <$> catalogue 3)
                      (world_of (setRows 0 (bulk_request 20 0)))))))
     = normalize <$> catalogue 3.
Proof.
  split.
  - pose proof (proj1 (handleAutoSelect_overwrites (serve (catalogue 30)) 20
                         reverse (bulk_request 20 0)
                         (world_of (bulk_request 20 0)) 20
                         (normalize <$> catalogue 3) eq_refl ltac:(done))
                  [1; 2] eq_refl) as Hsame.
    by inversion Hsame.
  - apply (proj2 (handleAutoSelect_overwrites (serve (catalogue 30)) 20
                    reverse (setRows 0 (bulk_request 20 0))
                    (world_of (setRows 0 (bulk_request 20 0))) 20
                    (normalize <$> catalogue 3) eq_refl ltac:(done))
             RangeError eq_refl).
Defined.

Lemma fetchArtworks_requests_witness :
  requests (snd (fetchArtworks (serve (catalogue 30))
                   (ui (first_load (serve (catalogue 30)))) 1 24
                   (first_load (serve (catalogue 30)))))
  = [(1, 12)]
  /\ console (snd (fetchArtworks (serve (catalogue 30))
                     (ui (first_load (serve (catalogue 30)))) 1 24
                     (first_load (serve (catalogue 30)))))
     = [].
Proof.
  destruct (fetchArtworks_requests (serve (catalogue 30))
              (ui (first_load (serve (catalogue 30)))) 1 24
              (first_load (serve (catalogue 30))))
    as (Hrequests & _ & Hconsole).
  split.
  - rewrite Hrequests. vm_compute. reflexivity.
  - rewrite Hconsole; [reflexivity|]. vm_compute. eexists. reflexivity.
Defined.
